(** * Octopus charging scanner: scoring, window selection, forecast tracking

    A shallow embedding of the numerical core of the scanner
    ([analyzer.py], [threshold_tuner.py], [forecast_evolution.py],
    [forecast_tracker.py]) and the properties its specification states.

    Conventions of the embedding:
    - a Python [float] is an exact rational [Q]; a Python [int] is a [Z];
    - a [datetime] is a [Z] number of microseconds, a [date] a [Z] day
      ordinal ([date.isoformat] is injective and its string order is the
      chronological order, so sorting by the ISO string is sorting by the
      ordinal);
    - a raised exception is the left summand of [result];
    - a [dict] keyed by timestamps or strings is a [gmap];
    - the wall clock ([datetime.now]) is an explicit argument. *)

From Stdlib Require Import ZArith QArith Qabs Qround Lia Lqa.
From stdpp Require Import gmap strings list sorting.

Local Open Scope Z_scope.

(** ** Python primitives *)
Module py.

Inductive exn : Type :=
| ValueError (msg : string)
| ZeroDivisionError
| IndexError
| StatisticsError.

Definition result (A : Type) : Type := (exn + A)%type.

Definition ret {A} (a : A) : result A := inr a.
Definition raise {A} (e : exn) : result A := inl e.
Definition bind {A B} (m : result A) (k : A -> result B) : result B :=
  match m with
  | inl e => inl e
  | inr a => k a
  end.

Definition Qltb (a b : Q) : bool := negb (Qle_bool b a).
Definition Qleb (a b : Q) : bool := Qle_bool a b.

(** [a / b] on numbers: raises on a zero divisor. *)
Definition div (a b : Q) : result Q :=
  if Qeq_bool b 0 then raise ZeroDivisionError else ret (a / b)%Q.

(** [int(x)]: truncation toward zero. *)
Definition int (x : Q) : Z := Z.quot (Qnum x) (Z.pos (Qden x)).

(** [round(x)]: nearest integer, ties to the even neighbour. *)
Definition round (x : Q) : Z :=
  let f := Qfloor x in
  let r := (x - inject_Z f)%Q in
  if Qltb r (1 # 2) then f
  else if Qltb (1 # 2) r then f + 1
  else if Z.even f then f else f + 1.

(** [round(x, ndigits)] for [ndigits >= 0]. *)
Definition round_nd (x : Q) (ndigits : Z) : Q :=
  (inject_Z (round (x * inject_Z (10 ^ ndigits))) / inject_Z (10 ^ ndigits))%Q.

(** [max(a, b)] and [min(a, b)]: the first argument wins a tie. *)
Definition max (a b : Q) : Q := if Qltb a b then b else a.
Definition min (a b : Q) : Q := if Qltb b a then b else a.

(** [max(xs)] and [min(xs)] of a list: an empty one is a [ValueError]. *)
Definition max_of (xs : list Q) : result Q :=
  match xs with
  | [] => raise (ValueError "max() arg is an empty sequence")
  | x :: r => ret (foldl max x r)
  end.
Definition min_of (xs : list Q) : result Q :=
  match xs with
  | [] => raise (ValueError "min() arg is an empty sequence")
  | x :: r => ret (foldl min x r)
  end.

(** [sum(xs)]: left fold from [0]. *)
Definition sum (xs : list Q) : Q := foldl Qplus 0%Q xs.

Definition len {A} (l : list A) : Z := Z.of_nat (length l).

(** The arithmetic mean [sum(xs) / len(xs)] of a non-empty list, for the
    statements. *)
Definition mean (xs : list Q) : Q := (sum xs / inject_Z (len xs))%Q.

(** A slice bound [i] of a sequence of length [n], as [l[i:...]] reads it. *)
Definition clamp (n i : Z) : Z :=
  if i <? 0 then Z.max 0 (n + i) else Z.min i n.

(** [l[i:j]] *)
Definition slice {A} (l : list A) (i j : Z) : list A :=
  let lo := clamp (len l) i in
  let hi := clamp (len l) j in
  take (Z.to_nat (hi - lo)) (drop (Z.to_nat lo) l).

(** [l[i]], with Python's negative indices. *)
Definition getitem {A} (l : list A) (i : Z) : result A :=
  let j := if i <? 0 then len l + i else i in
  if j <? 0 then raise IndexError
  else match l !! Z.to_nat j with
       | Some a => ret a
       | None => raise IndexError
       end.

Fixpoint mapM {A B} (f : A -> result B) (l : list A) : result (list B) :=
  match l with
  | [] => ret []
  | a :: r =>
      match f a with
      | inl e => inl e
      | inr b =>
          match mapM f r with
          | inl e => inl e
          | inr bs => ret (b :: bs)
          end
      end
  end.

(** [sorted(xs)] on numbers. *)
Fixpoint insert_num (x : Q) (l : list Q) : list Q :=
  match l with
  | [] => [x]
  | y :: r => if Qleb x y then x :: y :: r else y :: insert_num x r
  end.
Definition sorted (xs : list Q) : list Q := foldr insert_num [] xs.

(** [range(n)] *)
Definition range (n : Z) : list nat := seq 0 (Z.to_nat n).

(** [sorted(l, key=key)] and [l.sort(key=key)]: a stable sort, ascending
    on an integer key. *)
Section sort.
Context {A : Type} (key : A -> Z).

Fixpoint insert_by (x : A) (l : list A) : list A :=
  match l with
  | [] => [x]
  | y :: r => if key x <=? key y then x :: y :: r else y :: insert_by x r
  end.

Definition sort_by (l : list A) : list A := foldr insert_by [] l.
End sort.

(** [sorted(l, key=key, reverse=True)]: descending, equal keys keep their
    original order. *)
Definition sort_by_desc {A} (key : A -> Z) (l : list A) : list A :=
  sort_by (fun a => - key a) l.

End py.

Notation "'do' x <- m ; k" := (py.bind m (fun x => k))
  (at level 10, x name, m at level 100, k at level 200).

(** ** analyzer.py *)
Module analyzer.
Import py.

Inductive OpportunityRating := EXCELLENT | GOOD | AVERAGE | POOR.

Record PriceSlot := {
  ps_time : Z;
  ps_price : Q;
  ps_source : string
}.

Record CarbonSlot := {
  cs_time : Z;
  cs_intensity : Z
}.

Record Analyzer := {
  price_weight : Q;
  carbon_weight : Q;
  price_excellent : Q;
  price_good : Q;
  price_average : Q;
  carbon_excellent : Z;
  carbon_good : Z;
  carbon_average : Z
}.

Definition DEFAULT_PRICE_EXCELLENT : Q := 10.
Definition DEFAULT_PRICE_GOOD : Q := 15.
Definition DEFAULT_PRICE_AVERAGE : Q := 20.
Definition DEFAULT_CARBON_EXCELLENT : Z := 100.
Definition DEFAULT_CARBON_GOOD : Z := 150.
Definition DEFAULT_CARBON_AVERAGE : Z := 200.
Definition DEFAULT_PRICE_WEIGHT : Q := 6 # 10.
Definition DEFAULT_CARBON_WEIGHT : Q := 4 # 10.


Definition default_analyzer : Analyzer :=
  {| price_weight := DEFAULT_PRICE_WEIGHT;
     carbon_weight := DEFAULT_CARBON_WEIGHT;
     price_excellent := DEFAULT_PRICE_EXCELLENT;
     price_good := DEFAULT_PRICE_GOOD;
     price_average := DEFAULT_PRICE_AVERAGE;
     carbon_excellent := DEFAULT_CARBON_EXCELLENT;
     carbon_good := DEFAULT_CARBON_GOOD;
     carbon_average := DEFAULT_CARBON_AVERAGE |}.

Definition calculate_price_score (self : Analyzer) (price : Q) : Q :=
  if Qleb price (price_excellent self) then 100
  else if Qleb price (price_good self) then 75
  else if Qleb price (price_average self) then 50
  else 25.

Definition calculate_carbon_score (self : Analyzer) (carbon : Q) : Q :=
  if Qleb carbon (inject_Z (carbon_excellent self)) then 100
  else if Qleb carbon (inject_Z (carbon_good self)) then 75
  else if Qleb carbon (inject_Z (carbon_average self)) then 50
  else 25.

Definition calculate_opportunity_score (self : Analyzer) (price carbon : Q) : Q :=
  let price_score := calculate_price_score self price in
  let carbon_score := calculate_carbon_score self carbon in
  (price_weight self * price_score + carbon_weight self * carbon_score)%Q.

Definition classify_opportunity (score : Q) : OpportunityRating :=
  if Qleb 90 score then EXCELLENT
  else if Qleb 70 score then GOOD
  else if Qleb 50 score then AVERAGE
  else POOR.

Definition determine_reason (self : Analyzer) (price carbon : Q) : string :=
  let is_cheap := Qleb price (price_good self) in
  let is_clean := Qleb carbon (inject_Z (carbon_good self)) in
  if is_cheap && is_clean then "both"
  else if is_cheap then "cheap"
  else if is_clean then "clean"
  else "neither".

(** An entry of the aligned series: the dict with keys ["time"],
    ["price"], ["carbon"]. *)
Record AlignedSlot := {
  a_time : Z;
  a_price : Q;
  a_carbon : Z
}.

Record ChargingWindow := {
  start : Z;
  end_ : Z;
  avg_price : Q;
  avg_carbon : Z;
  total_cost : Q;
  total_carbon : Z;
  opportunity_score : Q;
  rating : OpportunityRating;
  reason : string;
  savings_vs_baseline : Q
}.



(** [timedelta(minutes=m)] in microseconds. *)
Definition timedelta_minutes (m : Z) : Z := m * 60000000.

(** The dict comprehension [{slot.time: slot.intensity for slot in
    carbon_slots}]: a later slot with the same time overwrites. *)
Definition carbon_lookup (carbon_slots : list CarbonSlot) : gmap Z Z :=
  foldl (fun m slot => <[cs_time slot := cs_intensity slot]> m) ∅ carbon_slots.

Definition _align_data (price_slots : list PriceSlot)
    (carbon_slots : list CarbonSlot) : list AlignedSlot :=
  let lookup := carbon_lookup carbon_slots in
  let aligned :=
    omap (fun price_slot =>
            match lookup !! ps_time price_slot with
            | Some carbon_value =>
                Some {| a_time := ps_time price_slot;
                        a_price := ps_price price_slot;
                        a_carbon := carbon_value |}
            | None => None
            end) price_slots in
  sort_by a_time aligned.

Definition prices (w : list AlignedSlot) : list Q := map a_price w.
Definition carbons (w : list AlignedSlot) : list Q :=
  map (fun s => inject_Z (a_carbon s)) w.

(** The first slot at or after [baseline_time], with its index. *)
Fixpoint first_at_or_after (baseline_time : Z) (i : nat)
    (l : list AlignedSlot) : option nat :=
  match l with
  | [] => None
  | slot :: r =>
      if baseline_time <=? a_time slot then Some i
      else first_at_or_after baseline_time (S i) r
  end.

Definition _calculate_baseline_cost (aligned_data : list AlignedSlot)
    (baseline_time : Z) (slots_needed : Z) (kwh_charged : Q) : result Q :=
  let baseline_slots :=
    match first_at_or_after baseline_time 0 aligned_data with
    | Some i => slice aligned_data (Z.of_nat i) (Z.of_nat i + slots_needed)
    | None => []
    end in
  if bool_decide (baseline_slots = []) || (len baseline_slots <? slots_needed)
  then ret 5%Q
  else
    do avg_baseline_price <- div (sum (prices baseline_slots))
                                 (inject_Z (len baseline_slots));
    ret (avg_baseline_price * kwh_charged / 100)%Q.

(** The body of the search loop [for i in range(...)], threading
    [(best_window, best_score)]. *)
Fixpoint search (self : Analyzer) (aligned_data : list AlignedSlot)
    (slots_needed : Z) (indices : list nat)
    (best : option (list AlignedSlot) * Q)
  : result (option (list AlignedSlot) * Q) :=
  match indices with
  | [] => ret best
  | i :: rest =>
      let window_slots :=
        slice aligned_data (Z.of_nat i) (Z.of_nat i + slots_needed) in
      do avg_price <- div (sum (prices window_slots))
                          (inject_Z (len window_slots));
      do avg_carbon <- div (sum (carbons window_slots))
                           (inject_Z (len window_slots));
      let score := calculate_opportunity_score self avg_price avg_carbon in
      if Qltb (snd best) score
      then search self aligned_data slots_needed rest (Some window_slots, score)
      else search self aligned_data slots_needed rest best
  end.

Definition find_optimal_window (self : Analyzer)
    (price_slots : list PriceSlot) (carbon_slots : list CarbonSlot)
    (charge_duration_hours : Q) (baseline_time : option Z)
  : result ChargingWindow :=
  if bool_decide (price_slots = []) || bool_decide (carbon_slots = [])
  then raise (ValueError "Price and carbon data required")
  else
  let aligned_data := _align_data price_slots carbon_slots in
  if bool_decide (aligned_data = [])
  then raise (ValueError "No overlapping price and carbon data found")
  else
  let slots_needed := int (charge_duration_hours * 2) in
  do found <- search self aligned_data slots_needed
                (range (len aligned_data - slots_needed + 1))
                (None, (-1)%Q);
  let best_score := snd found in
  match fst found with
  | None | Some [] => raise (ValueError "No valid charging window found")
  | Some ((first :: others) as best_window) =>
      let start_time := a_time first in
      let end_time := a_time (List.last others first) + timedelta_minutes 30 in
      do avg_price <- div (sum (prices best_window))
                          (inject_Z (len best_window));
      do mean_carbon <- div (sum (carbons best_window))
                            (inject_Z (len best_window));
      let avg_carbon := int mean_carbon in
      let kwh_charged := (charge_duration_hours * (74 # 10))%Q in
      let total_cost := (avg_price * kwh_charged / 100)%Q in
      let total_carbon := int (inject_Z avg_carbon * kwh_charged) in
      do baseline_cost <-
        match baseline_time with
        | Some t => _calculate_baseline_cost aligned_data t slots_needed
                      kwh_charged
        | None => ret (total_cost * (15 # 10))%Q
        end;
      let savings := (baseline_cost - total_cost)%Q in
      let rating := classify_opportunity best_score in
      let reason := determine_reason self avg_price (inject_Z avg_carbon) in
      ret {| start := start_time;
             end_ := end_time;
             avg_price := avg_price;
             avg_carbon := avg_carbon;
             total_cost := total_cost;
             total_carbon := total_carbon;
             opportunity_score := best_score;
             rating := rating;
             reason := reason;
             savings_vs_baseline := savings |}
  end.

(** *** Vocabulary for the statements about the search *)

(** The candidate window that starts at index [i]. *)
Definition window (aligned_data : list AlignedSlot) (slots_needed : Z)
    (i : nat) : list AlignedSlot :=
  slice aligned_data (Z.of_nat i) (Z.of_nat i + slots_needed).

(** The opportunity score of a window, from its mean price and carbon. *)
Definition window_score (self : Analyzer) (w : list AlignedSlot) : Q :=
  calculate_opportunity_score self (mean (prices w)) (mean (carbons w)).

(** [cw] carries the figures of the candidate window at index [i], for a
    charge of [d] hours. *)
Definition describes (self : Analyzer) (aligned_data : list AlignedSlot)
    (slots_needed : Z) (d : Q) (i : nat) (cw : ChargingWindow) : Prop :=
  let w := window aligned_data slots_needed i in
  len w = slots_needed /\
  a_time <$> head w = Some (start cw) /\
  (fun s => a_time s + timedelta_minutes 30) <$> last w = Some (end_ cw) /\
  avg_price cw = mean (prices w) /\
  avg_carbon cw = int (mean (carbons w)) /\
  opportunity_score cw = window_score self w /\
  total_cost cw = (avg_price cw * (d * (74 # 10)) / 100)%Q /\
  rating cw = classify_opportunity (window_score self w).

(** Index [i] is the first among the candidate windows of maximal score. *)
Definition first_best (self : Analyzer) (aligned_data : list AlignedSlot)
    (slots_needed : Z) (i : nat) : Prop :=
  (forall j : nat, Z.of_nat j + slots_needed <= len aligned_data ->
     (window_score self (window aligned_data slots_needed j)
        <= window_score self (window aligned_data slots_needed i))%Q) /\
  (forall j : nat, (j < i)%nat ->
     (window_score self (window aligned_data slots_needed j)
        < window_score self (window aligned_data slots_needed i))%Q).

(** Consecutive slots of the series are exactly 30 minutes apart. *)
Definition half_hourly (l : list AlignedSlot) : Prop :=
  forall (i : nat) s t, l !! i = Some s -> l !! S i = Some t ->
    a_time t = a_time s + timedelta_minutes 30.

(** A day of [n] half-hourly slots from midnight, priced by [f]. *)
Definition price_series (f : nat -> Q) (n : nat) : list PriceSlot :=
  map (fun i => {| ps_time := timedelta_minutes (30 * Z.of_nat i);
                   ps_price := f i;
                   ps_source := "octopus" |}) (seq 0 n).

Definition carbon_series (g : nat -> Z) (n : nat) : list CarbonSlot :=
  map (fun i => {| cs_time := timedelta_minutes (30 * Z.of_nat i);
                   cs_intensity := g i |}) (seq 0 n).

Definition in_stretch (lo hi i : nat) : bool :=
  (lo <=? i)%nat && (i <? hi)%nat.

(** The series of [test_find_optimal_window_basic]: the first twelve
    slots cheap and clean, the rest average. *)
Definition basic_prices : list PriceSlot :=
  price_series (fun i => if in_stretch 0 12 i then 8 else 18)%Q 48.
Definition basic_carbon : list CarbonSlot :=
  carbon_series (fun i => if in_stretch 0 12 i then 90 else 180) 48.

(** The series of [test_find_optimal_window_prefers_high_score]: slots
    4..11 cheap and clean, 12..19 cheap but dirty, the rest poor. *)
Definition high_score_prices : list PriceSlot :=
  price_series (fun i => if in_stretch 4 12 i then 8
                         else if in_stretch 12 20 i then 10 else 25)%Q 48.
Definition high_score_carbon : list CarbonSlot :=
  carbon_series (fun i => if in_stretch 4 12 i then 80
                          else if in_stretch 12 20 i then 200 else 250) 48.


(** Two slots an hour and a half apart. *)
Definition gapped_prices : list PriceSlot :=
  [ {| ps_time := 0; ps_price := 8; ps_source := "octopus" |};
    {| ps_time := timedelta_minutes 90; ps_price := 8;
       ps_source := "octopus" |} ].
Definition gapped_carbon : list CarbonSlot :=
  [ {| cs_time := 0; cs_intensity := 80 |};
    {| cs_time := timedelta_minutes 90; cs_intensity := 80 |} ].


(** *** The status of a window *)

Inductive WindowStatus := UPCOMING | ACTIVE | PASSED.

(** [get_status], [time_until_start] and [time_until_end], the current
    time given. *)
Definition get_status (self : ChargingWindow) (current_time : Z)
  : WindowStatus :=
  if current_time <? start self then UPCOMING
  else if end_ self <? current_time then PASSED
  else ACTIVE.

Definition time_until_start (self : ChargingWindow) (current_time : Z) : Z :=
  start self - current_time.

Definition time_until_end (self : ChargingWindow) (current_time : Z) : Z :=
  end_ self - current_time.

(** The ratings from worst to best, for the statements. *)
Definition rating_rank (r : OpportunityRating) : Z :=
  match r with
  | EXCELLENT => 3
  | GOOD => 2
  | AVERAGE => 1
  | POOR => 0
  end.

(** Two carbon readings for midnight: the later one is used. *)
Definition repeated_carbon : list CarbonSlot :=
  [ {| cs_time := 0; cs_intensity := 80 |};
    {| cs_time := 0; cs_intensity := 95 |} ].

(** A one-slot day. *)
Definition single_price : list PriceSlot := price_series (fun _ => 12%Q) 1.
Definition single_carbon : list CarbonSlot := carbon_series (fun _ => 120) 1.

End analyzer.


(** ** threshold_tuner.py *)
Module threshold_tuner.
Import py.

(** The [i]-th of the [n - 1] cut points of the sorted sample [data]:
    the body of the loop of [statistics.quantiles], default method
    (['exclusive']). *)
Definition cut_point (data : list Q) (n : Z) (i : nat) : result Q :=
  let ld := len data in
  let m := ld + 1 in
  let i := Z.of_nat i in
  let j := i * m / n in
  let j := if j <? 1 then 1 else if ld - 1 <? j then ld - 1 else j in
  let delta := i * m - j * n in
  do lower <- getitem data (j - 1);
  do upper <- getitem data j;
  ret ((lower * inject_Z (n - delta) + upper * inject_Z delta)
         / inject_Z n)%Q.

(** [statistics.quantiles(data, n=n)] of the standard library: the cut
    points at ranks [i * (len + 1) / n], interpolated linearly between the
    neighbouring order statistics. Fewer than two points are a
    [StatisticsError]. *)
Definition quantiles (data : list Q) (n : Z) : result (list Q) :=
  if n <? 1 then raise StatisticsError
  else
  let data := sorted data in
  if len data <? 2 then raise StatisticsError
  else mapM (cut_point data n) (seq 1 (Z.to_nat (n - 1))).

(** [statistics.median(data)] *)
Definition median (data : list Q) : result Q :=
  let data := sorted data in
  let n := len data in
  if n =? 0 then raise StatisticsError
  else if n mod 2 =? 1 then getitem data (n / 2)
  else
    let i := n / 2 in
    do a <- getitem data (i - 1);
    do b <- getitem data i;
    ret ((a + b) / 2)%Q.

Definition calculate_optimal_thresholds (historical_prices : list Q)
    (days_analyzed : Z) : result (Q * Q) :=
  if len historical_prices <? 7 then ret (10, 15)%Q
  else
    do cuts <- quantiles historical_prices 4;
    do excellent <- getitem cuts 0;
    do good <- median historical_prices;
    ret (round_nd excellent 1, round_nd good 1).

(** *** Vocabulary for the statements *)

(** The [p]-th percentile as the specification describes it: linear
    interpolation between the order statistics around rank [p (n + 1)],
    the rank kept within the sample. *)
Definition percentile (p : Q) (data : list Q) : Q :=
  let xs := sorted data in
  let n := len xs in
  let h := (p * inject_Z (n + 1))%Q in
  let j := Z.max 1 (Z.min (n - 1) (Qfloor h)) in
  let lower := nth (Z.to_nat (j - 1)) xs 0%Q in
  let upper := nth (Z.to_nat j) xs 0%Q in
  (lower + (h - inject_Z j) * (upper - lower))%Q.

(** The prices 5, 6, ..., 15 of the test suite. *)
Definition eleven_prices : list Q :=
  map (fun i => inject_Z (Z.of_nat i)) (seq 5 11).

End threshold_tuner.

(** ** forecast_evolution.py *)
Module forecast_evolution.
Import py.

Definition RETENTION_DAYS : Z := 30.

(** The [DayComparison] of the multi-day planner, read through
    [getattr]; every attribute is present on the dataclass. *)
Record DayComparison := {
  dc_date : string;
  dc_day_name : string;
  dc_avg_price : Q;
  dc_optimal_window : list (string * string);
  dc_cost : Q;
  dc_rating : string;
  dc_price_source : string;
  dc_savings_vs_today : Q;
  dc_avg_carbon : Z
}.

Record Snapshot := {
  snapshot_date : Z;
  snapshot_timestamp : Z;
  days_until_target : Z;
  price_source : string;
  predicted_avg_price : Q;
  predicted_cost : Q;
  predicted_savings_pct : Q;
  rating : string;
  optimal_window : list (string * string);
  confidence_score : Z
}.

Record Summary := {
  initial_savings_pct : Q;
  current_savings_pct : Q;
  savings_drift : Q;
  savings_drift_direction : string;
  price_volatility : Q;
  num_snapshots : Z;
  first_snapshot : Z;
  last_updated : Z
}.

Record ActualResult := {
  recorded_at : Z;
  actual_cost : Q;
  actual_avg_price : Q
}.

Record TargetData := {
  target_date : string;
  snapshots : list Snapshot;
  evolution_summary : option Summary;
  actual_result : option ActualResult
}.

(** The content of [forecast_evolution.json]. *)
Record EvolutionData := {
  target_forecasts : gmap string TargetData;
  last_cleanup : option Z
}.

(** What [_load_evolution_data] returns when the file is missing. *)
Definition empty_data : EvolutionData :=
  {| target_forecasts := ∅; last_cleanup := None |}.

Definition _calculate_confidence (days_until_target : Z)
    (price_source : string) (historical_mae : option Q) : Z :=
  let time_score : Q :=
    if days_until_target <=? 1 then 100%Q
    else if days_until_target =? 2 then 85%Q
    else if days_until_target <=? 4 then 60%Q
    else inject_Z (Z.max 30 (100 - days_until_target * 10)) in
  let source_score : Q :=
    if String.eqb price_source "octopus_actual" then 100%Q else 50%Q in
  let accuracy_score : Q :=
    match historical_mae with
    | None => 40%Q
    | Some mae =>
        if Qltb 5 mae then 40%Q
        else if Qltb mae 2 then 100%Q
        else max 40 (100 - mae * 12)
    end in
  int ((40 # 100) * time_score + (35 # 100) * source_score
       + (25 # 100) * accuracy_score).

Section tracker.
(** [datetime.strptime(s, "%Y-%m-%d").date()] as a day ordinal, and the
    floating-point square root [x ** 0.5]: library functions the
    tracker calls. *)
Context (strptime : string -> result Z) (sqrt : Q -> Q).

Definition _calculate_evolution_summary (snapshots : list Snapshot)
  : option Summary :=
  match snapshots with
  | [] => None
  | initial :: others =>
      let current := List.last others initial in
      let initial_savings := predicted_savings_pct initial in
      let current_savings := predicted_savings_pct current in
      let drift := (current_savings - initial_savings)%Q in
      let costs := map predicted_cost snapshots in
      let volatility :=
        if 1 <? len costs then
          let mean_cost := (sum costs / inject_Z (len costs))%Q in
          let variance :=
            (sum (map (fun c => (c - mean_cost) ^ 2) costs)
               / inject_Z (len costs))%Q in
          sqrt variance
        else 0%Q in
      Some {| initial_savings_pct := initial_savings;
              current_savings_pct := current_savings;
              savings_drift := round_nd drift 2;
              savings_drift_direction :=
                if Qltb 0 drift then "improved"
                else if Qltb drift 0 then "worsened" else "unchanged";
              price_volatility := round_nd volatility 2;
              num_snapshots := len snapshots;
              first_snapshot := snapshot_date initial;
              last_updated := snapshot_timestamp current |}
  end.

(** [record_snapshot], with the clock ([today], [now]) and the stored
    file content as arguments; the result is the content saved. *)
Definition record_snapshot (today now : Z) (target_date : string)
    (day_comparison : DayComparison) (historical_mae : option Q)
    (stored : EvolutionData) : result EvolutionData :=
  do target <- strptime target_date;
  if target <? today then ret stored
  else
  let days_until_target := target - today in
  let price_source := dc_price_source day_comparison in
  let confidence :=
    _calculate_confidence days_until_target price_source historical_mae in
  let today_cost :=
    (dc_cost day_comparison + dc_savings_vs_today day_comparison)%Q in
  let savings_pct :=
    if Qltb 0 today_cost
    then (dc_savings_vs_today day_comparison / today_cost * 100)%Q
    else 0%Q in
  let snapshot :=
    {| snapshot_date := today;
       snapshot_timestamp := now;
       days_until_target := days_until_target;
       price_source := price_source;
       predicted_avg_price := dc_avg_price day_comparison;
       predicted_cost := dc_cost day_comparison;
       predicted_savings_pct := round_nd savings_pct 2;
       rating := dc_rating day_comparison;
       optimal_window := dc_optimal_window day_comparison;
       confidence_score := confidence |} in
  let evolution_data := stored in
  let target_data :=
    match target_forecasts evolution_data !! target_date with
    | Some t => t
    | None => {| target_date := target_date;
                 snapshots := [];
                 evolution_summary := None;
                 actual_result := None |}
    end in
  let kept :=
    filter (fun s => snapshot_date s <> today) (snapshots target_data) in
  let appended := kept ++ [snapshot] in
  let sorted_snapshots := sort_by snapshot_date appended in
  let target_data :=
    {| target_date := forecast_evolution.target_date target_data;
       snapshots := sorted_snapshots;
       evolution_summary := _calculate_evolution_summary sorted_snapshots;
       actual_result := actual_result target_data |} in
  ret {| target_forecasts :=
           <[target_date := target_data]> (target_forecasts evolution_data);
         last_cleanup := last_cleanup evolution_data |}.

(** The stores that sequences of [record_snapshot] calls produce from a
    missing file. *)
Inductive reachable : EvolutionData -> Prop :=
| reachable_empty : reachable empty_data
| reachable_record stored today now target_date day_comparison
    historical_mae saved :
    reachable stored ->
    record_snapshot today now target_date day_comparison historical_mae
      stored = inr saved ->
    reachable saved.
End tracker.

(** *** Vocabulary for the statements *)

(** The three component scores as the specification words them. *)
Definition spec_time_score (days : Z) : Q :=
  if days <=? 1 then 100
  else if days =? 2 then 85
  else if days <=? 4 then 60
  else inject_Z (Z.max 30 (100 - 10 * days)).

Definition spec_source_score (settled : bool) : Q :=
  if settled then 100 else 50.

Definition spec_accuracy_score (mae : option Q) : Q :=
  match mae with
  | Some m =>
      if Qltb m 2 then 100
      else if Qltb 5 m then 40
      else if Qltb 40 (100 - 12 * m) then (100 - 12 * m)%Q else 40
  | None => 40
  end.

Definition spec_blend (days : Z) (settled : bool) (mae : option Q) : Q :=
  ((40 # 100) * spec_time_score days + (35 # 100) * spec_source_score settled
   + (25 # 100) * spec_accuracy_score mae)%Q.

(** At most one snapshot per calendar day, in chronological order. *)
Definition one_per_day (l : list Snapshot) : Prop :=
  NoDup (snapshot_date <$> l).
Definition chronological (l : list Snapshot) : Prop :=
  Sorted (fun a b => snapshot_date a <= snapshot_date b) l.

(** A parser for the two dates of the examples. *)
Definition example_strptime (s : string) : result Z :=
  if String.eqb s "2025-12-10" then ret 739595
  else if String.eqb s "2025-12-12" then ret 739597
  else raise (ValueError "time data does not match format").

Definition example_comparison (cost savings : Q) : DayComparison :=
  {| dc_date := "2025-12-12"; dc_day_name := "Day After";
     dc_avg_price := 12; dc_optimal_window := [];
     dc_cost := cost; dc_rating := "GOOD"; dc_price_source := "forecast";
     dc_savings_vs_today := savings; dc_avg_carbon := 120 |}.

(** *** Reading the store, results and retention *)

Definition get_evolution (target_date : string) (stored : EvolutionData)
  : option TargetData :=
  target_forecasts stored !! target_date.

(** [evolution["snapshots"][-1]] when the target is tracked and has
    snapshots. *)
Definition get_latest_snapshot (target_date : string)
    (stored : EvolutionData) : option Snapshot :=
  match get_evolution target_date stored with
  | Some evolution =>
      match snapshots evolution with
      | [] => None
      | _ => last (snapshots evolution)
      end
  | None => None
  end.



(** [record_actual_result]: the content of the file afterwards (nothing
    is written for a target that is not tracked). *)
Definition record_actual_result (now : Z) (target_date : string)
    (actual_cost actual_avg_price : Q) (stored : EvolutionData)
  : EvolutionData :=
  match target_forecasts stored !! target_date with
  | None => stored
  | Some t =>
      {| target_forecasts :=
           <[target_date :=
               {| target_date := forecast_evolution.target_date t;
                  snapshots := snapshots t;
                  evolution_summary := evolution_summary t;
                  actual_result :=
                    Some {| recorded_at := now;
                            actual_cost := actual_cost;
                            actual_avg_price := actual_avg_price |} |}]>
             (target_forecasts stored);
         last_cleanup := last_cleanup stored |}
  end.

Section retention.
Context (strptime : string -> result Z).

(** Whether the comprehension of [cleanup_old_data] keeps a key. *)
Definition keeps (cutoff : Z) (target_date : string) : bool :=
  match strptime target_date with
  | inr d => cutoff <=? d
  | inl _ => false
  end.

(** [cleanup_old_data]: the number of entries removed and the content of
    the file afterwards. The comprehension raises on the first key, in
    insertion order, that does not parse; the store of the model keeps
    no insertion order, so which unparsable key is reported is not
    modelled. *)
Definition cleanup_old_data (today now : Z) (stored : EvolutionData)
  : result (Z * EvolutionData) :=
  let cutoff := today - RETENTION_DAYS in
  let original_count := Z.of_nat (size (target_forecasts stored)) in
  do parsed <- mapM (fun kv : string * TargetData => strptime (fst kv))
                 (map_to_list (target_forecasts stored));
  let kept :=
    filter (fun kv : string * TargetData => keeps cutoff (fst kv) = true)
      (target_forecasts stored) in
  let removed := original_count - Z.of_nat (size kept) in
  if 0 <? removed
  then ret (removed, {| target_forecasts := kept; last_cleanup := Some now |})
  else ret (removed, stored).
End retention.

(** *** More vocabulary for the statements *)

(** The snapshot [record_snapshot] builds on day [today] for a target
    parsed as [target]. *)
Definition snapshot_of (today now target : Z) (dc : DayComparison)
    (mae : option Q) : Snapshot :=
  let today_cost := (dc_cost dc + dc_savings_vs_today dc)%Q in
  {| snapshot_date := today;
     snapshot_timestamp := now;
     days_until_target := target - today;
     price_source := dc_price_source dc;
     predicted_avg_price := dc_avg_price dc;
     predicted_cost := dc_cost dc;
     predicted_savings_pct :=
       round_nd (if Qltb 0 today_cost
                 then (dc_savings_vs_today dc / today_cost * 100)%Q
                 else 0%Q) 2;
     rating := dc_rating dc;
     optimal_window := dc_optimal_window dc;
     confidence_score :=
       _calculate_confidence (target - today) (dc_price_source dc) mae |}.

(** The store after one recording, two days ahead of the target. *)
Definition one_snapshot_store : EvolutionData :=
  match record_snapshot example_strptime (fun x => x) 739595 1000
          "2025-12-12" (example_comparison 5 1) None empty_data with
  | inr saved => saved
  | inl _ => empty_data
  end.

(** The snapshots stored for a target, none when it is not tracked. *)
Definition stored_snapshots (target_date : string) (stored : EvolutionData)
  : list Snapshot :=
  match target_forecasts stored !! target_date with
  | Some t => snapshots t
  | None => []
  end.

End forecast_evolution.

(** ** forecast_tracker.py *)
Module forecast_tracker.
Import py.

Record NegativePricing := {
  forecast_predicted : bool;
  actually_occurred : bool;
  correct_prediction : bool
}.

(** A comparison record of [forecast_accuracy.json]; the
    ["negative_pricing"] entry may be missing from a stored record. *)
Record Comparison := {
  date : Z;
  timestamp : Z;
  forecast_source : string;
  num_hours : Z;
  mean_absolute_error : Q;
  mean_error : Q;
  max_error : Q;
  min_error : Q;
  forecast_avg : Q;
  actual_avg : Q;
  rmse : Q;
  forecast_min : Q;
  actual_min : Q;
  forecast_max : Q;
  actual_max : Q;
  errors : list Q;
  negative_pricing : option NegativePricing
}.



Definition _save_comparison (metrics : Comparison)
    (comparisons : list Comparison) : list Comparison :=
  let comparisons := filter (fun c => date c <> date metrics) comparisons in
  let comparisons := comparisons ++ [metrics] in
  let comparisons := sort_by_desc date comparisons in
  slice comparisons 0 90.

Section tracker.
(** The floating-point square root [x ** 0.5]. *)
Context (sqrt : Q -> Q).

(** [record_comparison], with the clock and the stored list as
    arguments; the result is the metrics and the list saved. *)
Definition record_comparison (now comparison_date : Z)
    (forecast_prices actual_prices : list Q) (forecast_source : string)
    (stored : list Comparison) : result (Comparison * list Comparison) :=
  if negb (len forecast_prices =? len actual_prices)
  then raise (ValueError "Price lists must be same length")
  else
  let errors :=
    zip_with (fun actual forecast => (actual - forecast)%Q)
      actual_prices forecast_prices in
  let abs_errors := map Qabs errors in
  do mean_absolute_error <-
    div (sum abs_errors) (inject_Z (len abs_errors));
  do mean_error <- div (sum errors) (inject_Z (len errors));
  do max_error <- max_of abs_errors;
  do min_error <- min_of abs_errors;
  do forecast_avg <-
    div (sum forecast_prices) (inject_Z (len forecast_prices));
  do actual_avg <- div (sum actual_prices) (inject_Z (len actual_prices));
  do mean_square <-
    div (sum (map (fun e => e ^ 2)%Q errors)) (inject_Z (len errors));
  do forecast_min <- min_of forecast_prices;
  do actual_min <- min_of actual_prices;
  do forecast_max <- max_of forecast_prices;
  do actual_max <- max_of actual_prices;
  let forecast_negative := existsb (fun p => Qltb p 0) forecast_prices in
  let actual_negative := existsb (fun p => Qltb p 0) actual_prices in
  let metrics :=
    {| date := comparison_date;
       timestamp := now;
       forecast_source := forecast_source;
       num_hours := len forecast_prices;
       mean_absolute_error := mean_absolute_error;
       mean_error := mean_error;
       max_error := max_error;
       min_error := min_error;
       forecast_avg := forecast_avg;
       actual_avg := actual_avg;
       rmse := sqrt mean_square;
       forecast_min := forecast_min;
       actual_min := actual_min;
       forecast_max := forecast_max;
       actual_max := actual_max;
       errors := slice errors 0 10;
       negative_pricing :=
         Some {| forecast_predicted := forecast_negative;
                 actually_occurred := actual_negative;
                 correct_prediction :=
                   Bool.eqb forecast_negative actual_negative |} |} in
  ret (metrics, _save_comparison metrics stored).
End tracker.






(** *** Vocabulary for the statements *)




End forecast_tracker.
(** * Properties *)

(** ** Facts about the Python primitives *)
Module py_facts.
Import py.

Lemma Qltb_true a b : Qltb a b = true <-> (a < b)%Q.
Proof.
  unfold Qltb. rewrite negb_true_iff, <- not_true_iff_false, Qle_bool_iff.
  split; [apply Qnot_le_lt | apply Qlt_not_le].
Qed.

Lemma Qltb_false a b : Qltb a b = false <-> (b <= a)%Q.
Proof. unfold Qltb. rewrite negb_false_iff. apply Qle_bool_iff. Qed.

Lemma Qleb_true a b : Qleb a b = true <-> (a <= b)%Q.
Proof. apply Qle_bool_iff. Qed.

Lemma Qleb_false a b : Qleb a b = false <-> (b < a)%Q.
Proof.
  unfold Qleb. rewrite <- not_true_iff_false, Qle_bool_iff.
  split; [apply Qnot_le_lt | apply Qlt_not_le].
Qed.

Lemma div_nonzero a b : ~ (b == 0)%Q -> div a b = inr (a / b)%Q.
Proof.
  intros Hb. unfold div. destruct (Qeq_bool b 0) eqn:E; [|reflexivity].
  apply Qeq_bool_iff in E. contradiction.
Qed.

Lemma div_zero a b : (b == 0)%Q -> div a b = inl ZeroDivisionError.
Proof.
  intros Hb. unfold div. apply Qeq_bool_iff in Hb. now rewrite Hb.
Qed.

Lemma int_floor x : (0 <= x)%Q -> int x = Qfloor x.
Proof.
  destruct x as [n d]. unfold int, Qfloor, Qle. cbn. intros H.
  apply Z.quot_div_nonneg; lia.
Qed.

Lemma Qltb_comp a b c d : (a == c)%Q -> (b == d)%Q -> Qltb a b = Qltb c d.
Proof. intros H1 H2. unfold Qltb. now rewrite H1, H2. Qed.

End py_facts.

(** ** The opportunity scorer *)
Module scorer_facts.
Import py py_facts analyzer.










End scorer_facts.

(** ** Slices and ranges *)
Module slice_facts.
Import py py_facts.

Lemma slice_inner {A} (l : list A) (i : nat) (k : Z) :
  1 <= k -> Z.of_nat i + k <= len l ->
  slice l (Z.of_nat i) (Z.of_nat i + k) = take (Z.to_nat k) (drop i l).
Proof.
  intros Hk Hlen. unfold slice, clamp, len in *.
  destruct (Z.ltb_spec (Z.of_nat i) 0); [lia|].
  destruct (Z.ltb_spec (Z.of_nat i + k) 0); [lia|].
  rewrite !Z.min_l by lia.
  replace (Z.of_nat i + k - Z.of_nat i) with k by lia.
  now rewrite Nat2Z.id.
Qed.

Lemma slice_inner_length {A} (l : list A) (i : nat) (k : Z) :
  1 <= k -> Z.of_nat i + k <= len l ->
  len (slice l (Z.of_nat i) (Z.of_nat i + k)) = k.
Proof.
  intros Hk Hlen. rewrite slice_inner by assumption.
  unfold len in *. rewrite length_take, length_drop. lia.
Qed.

(** A slice whose stop is index [0] is empty. *)
Lemma slice_stop_zero {A} (l : list A) (i : Z) :
  0 <= i -> slice l i 0 = [].
Proof.
  intros Hi. unfold slice, clamp, len.
  destruct (Z.ltb_spec i 0); [lia|]. cbn [Z.ltb Z.compare].
  replace (Z.to_nat _) with 0%nat by lia. reflexivity.
Qed.

Lemma elem_of_range (n : Z) (i : nat) :
  i ∈ range n <-> Z.of_nat i < n.
Proof. unfold range. rewrite elem_of_seq. lia. Qed.

Lemma range_lookup (n : Z) (p i : nat) :
  range n !! p = Some i -> i = p /\ Z.of_nat p < n.
Proof.
  unfold range. intros H. apply lookup_seq in H. lia.
Qed.

Lemma len_nil_iff {A} (l : list A) : len l = 0 <-> l = [].
Proof. unfold len. destruct l; cbn; split; intros; try done; lia. Qed.

(** [l[i:i+k]] for a non-negative start. *)
Lemma slice_take_drop {A} (l : list A) (i k : nat) :
  slice l (Z.of_nat i) (Z.of_nat (i + k)) = take k (drop i l).
Proof.
  unfold slice, clamp, len.
  destruct (Z.ltb_spec (Z.of_nat i) 0); [lia|].
  destruct (Z.ltb_spec (Z.of_nat (i + k)) 0); [lia|].
  destruct (Nat.le_gt_cases i (length l)) as [Hi|Hi].
  - rewrite (Z.min_l (Z.of_nat i)) by lia. rewrite Nat2Z.id.
    destruct (Nat.le_gt_cases (i + k) (length l)) as [Hk|Hk].
    + rewrite Z.min_l by lia. f_equal. lia.
    + rewrite Z.min_r by lia.
      rewrite (take_ge (drop i l) k) by (rewrite length_drop; lia).
      apply take_ge. rewrite length_drop. lia.
  - rewrite !Z.min_r by lia.
    rewrite (drop_ge l i) by lia. rewrite take_nil.
    replace (Z.to_nat _) with 0%nat by lia. reflexivity.
Qed.



End slice_facts.

(** ** The sliding search *)
Module search_facts.
Import py py_facts slice_facts analyzer.

Lemma inject_len_nonzero {A} (w : list A) :
  w <> [] -> ~ (inject_Z (len w) == 0)%Q.
Proof.
  intros Hw H. apply Hw, len_nil_iff.
  unfold Qeq in H. cbn in H. lia.
Qed.

Section loop.
Context (self : Analyzer) (aligned : list AlignedSlot) (k : Z).

Lemma search_cons_empty i rest best :
  window aligned k i = [] ->
  search self aligned k (i :: rest) best = inl ZeroDivisionError.
Proof.
  intros Hw. cbn [search]. fold (window aligned k i). rewrite Hw.
  reflexivity.
Qed.

Lemma search_cons_nonempty i rest best :
  window aligned k i <> [] ->
  search self aligned k (i :: rest) best =
    if Qltb (snd best) (window_score self (window aligned k i))
    then search self aligned k rest
           (Some (window aligned k i), window_score self (window aligned k i))
    else search self aligned k rest best.
Proof.
  intros Hw. cbn [search]. fold (window aligned k i).
  rewrite !div_nonzero by now apply inject_len_nonzero.
  unfold window_score, mean, prices, carbons, len.
  rewrite !length_map. reflexivity.
Qed.

(** The loop raises as soon as one candidate slice is empty. *)
Lemma search_raises indices best :
  (exists i, i ∈ indices /\ window aligned k i = []) ->
  search self aligned k indices best = inl ZeroDivisionError.
Proof.
  revert best. induction indices as [|i rest IH]; intros best (j & Hj & Hw).
  - inversion Hj.
  - destruct (window aligned k i) as [|s w] eqn:Ei.
    + now apply search_cons_empty.
    + rewrite search_cons_nonempty by (rewrite Ei; discriminate).
      assert (exists i0, i0 ∈ rest /\ window aligned k i0 = []) as Hex.
      { apply elem_of_cons in Hj as [->|Hj]; [congruence|eauto]. }
      destruct (Qltb _ _); now apply IH.
Qed.

Lemma search_returns_nonempty indices best r :
  search self aligned k indices best = inr r ->
  forall i, i ∈ indices -> window aligned k i <> [].
Proof.
  intros Hs i Hi Hw.
  rewrite search_raises in Hs by eauto. discriminate.
Qed.

(** The loop invariant, read at the exit: either nothing beat the
    initial best, or the result is the first window of maximal score. *)
Lemma search_ok indices best :
  (forall i, i ∈ indices -> window aligned k i <> []) ->
  exists r, search self aligned k indices best = inr r /\
    ((r = best /\
      forall i, i ∈ indices ->
        (window_score self (window aligned k i) <= snd best)%Q)
     \/
     (exists (p i : nat),
        indices !! p = Some i /\
        r = (Some (window aligned k i),
             window_score self (window aligned k i)) /\
        (snd best < window_score self (window aligned k i))%Q /\
        (forall (q j : nat), (q < p)%nat -> indices !! q = Some j ->
           (window_score self (window aligned k j)
              < window_score self (window aligned k i))%Q) /\
        (forall j, j ∈ indices ->
           (window_score self (window aligned k j)
              <= window_score self (window aligned k i))%Q))).
Proof.
  revert best. induction indices as [|i rest IH]; intros best Hne.
  - exists best. split; [reflexivity|]. left. split; [reflexivity|].
    intros i Hi. inversion Hi.
  - rewrite search_cons_nonempty by (apply Hne; left).
    assert (forall j, j ∈ rest -> window aligned k j <> []) as Hrest
      by (intros j Hj; apply Hne; now right).
    destruct (Qltb _ _) eqn:E.
    + apply Qltb_true in E.
      destruct (IH (Some (window aligned k i),
                    window_score self (window aligned k i)) Hrest)
        as (r & Hr & [[-> Hall]|(p & j & Hp & -> & Hlt & Hbefore & Hmax)]).
      * exists (Some (window aligned k i),
                window_score self (window aligned k i)).
        split; [exact Hr|]. right. exists 0%nat, i.
        repeat split; try done.
        -- intros q j Hq. lia.
        -- intros j Hj. apply elem_of_cons in Hj as [->|Hj].
           ++ apply Qle_refl.
           ++ apply (Hall j Hj).
      * eexists. split; [exact Hr|]. right. exists (S p), j.
        cbn [snd] in Hlt. repeat split; try done.
        -- lra.
        -- intros q j' Hq Hj'. destruct q as [|q]; cbn in Hj'.
           ++ injection Hj' as <-. exact Hlt.
           ++ apply (Hbefore q j'); [lia|exact Hj'].
        -- intros j' Hj'. apply elem_of_cons in Hj' as [->|Hj'].
           ++ lra.
           ++ now apply Hmax.
    + apply Qltb_false in E.
      destruct (IH best Hrest)
        as (r & Hr & [[-> Hall]|(p & j & Hp & -> & Hlt & Hbefore & Hmax)]).
      * exists best. split; [exact Hr|]. left. split; [reflexivity|].
        intros j Hj. apply elem_of_cons in Hj as [->|Hj]; auto.
      * eexists. split; [exact Hr|]. right. exists (S p), j.
        repeat split; try done.
        -- intros q j' Hq Hj'. destruct q as [|q]; cbn in Hj'.
           ++ injection Hj' as <-. lra.
           ++ apply (Hbefore q j'); [lia|exact Hj'].
        -- intros j' Hj'. apply elem_of_cons in Hj' as [->|Hj'].
           ++ lra.
           ++ now apply Hmax.
Qed.
End loop.

End search_facts.

(** ** [find_optimal_window] *)
Module window_facts.
Import py py_facts slice_facts analyzer scorer_facts search_facts.

Lemma int_ge_1 x : 1 <= int x -> (1 <= x)%Q.
Proof.
  unfold int. destruct x as [n d]. cbn. intros H.
  unfold Qle. cbn.
  assert (0 <= n \/ n < 0) as [Hn|Hn] by lia.
  - pose proof (Z.mul_quot_le n (Z.pos d) Hn ltac:(lia)). nia.
  - pose proof (Z.quot_opp_l n (Z.pos d) ltac:(lia)) as Ho.
    assert (0 <= - n ÷ Z.pos d) by (apply Z.quot_pos; lia). lia.
Qed.

Lemma int_small x : (0 <= x)%Q -> (x < 1)%Q -> int x = 0.
Proof.
  unfold int, Qle, Qlt. destruct x as [n d]. cbn. intros H0 H1.
  apply Z.quot_small. lia.
Qed.

Lemma last_default_irrelevant {A} (a : A) (l : list A) (x y : A) :
  List.last (a :: l) x = List.last (a :: l) y.
Proof.
  revert a. induction l as [|b l IH]; intros a; [reflexivity|].
  change (List.last (b :: l) x = List.last (b :: l) y). apply IH.
Qed.

Lemma last_cons_default {A} (x : A) (l : list A) :
  last (x :: l) = Some (List.last l x).
Proof.
  revert x. induction l as [|y l IH]; intros x; [reflexivity|].
  rewrite last_cons_cons, IH. f_equal.
  destruct l as [|z l]; [reflexivity|].
  change (List.last (z :: l) y = List.last (z :: l) x).
  apply last_default_irrelevant.
Qed.

Lemma align_nonempty_inputs ps cs :
  _align_data ps cs <> [] -> ps <> [] /\ cs <> [].
Proof.
  intros H. split; intros ->; apply H.
  - reflexivity.
  - unfold _align_data. cbn [carbon_lookup foldl].
    assert (forall l : list PriceSlot,
      omap (fun price_slot =>
        match (∅ : gmap Z Z) !! ps_time price_slot with
        | Some carbon_value =>
            Some {| a_time := ps_time price_slot;
                    a_price := ps_price price_slot;
                    a_carbon := carbon_value |}
        | None => None
        end) l = []) as Hemp.
    { induction l as [|p l IH]; [reflexivity|].
      cbn. rewrite lookup_empty. exact IH. }
    rewrite Hemp. reflexivity.
Qed.

Lemma baseline_cost_total aligned t k kwh :
  exists b, _calculate_baseline_cost aligned t k kwh = inr b.
Proof.
  unfold _calculate_baseline_cost.
  set (bs := match first_at_or_after t 0 aligned with
             | Some i => _ | None => _ end).
  destruct (bool_decide (bs = [])) eqn:E; cbn [orb].
  - eexists; reflexivity.
  - destruct (len bs <? k); [eexists; reflexivity|].
    apply bool_decide_eq_false in E.
    rewrite div_nonzero by now apply inject_len_nonzero.
    eexists; reflexivity.
Qed.

(** A non-positive window size makes the loop divide by zero. *)
Lemma search_nonpositive_size self aligned k best :
  k <= 0 ->
  search self aligned k (range (len aligned - k + 1)) best
    = inl ZeroDivisionError.
Proof.
  intros Hk. apply search_raises. exists (Z.to_nat (- k)). split.
  - apply elem_of_range. unfold len. lia.
  - unfold window. replace (Z.of_nat (Z.to_nat (- k)) + k) with 0 by lia.
    apply slice_stop_zero. lia.
Qed.

(** What a successful call has computed. *)
Lemma find_optimal_window_inv self ps cs d bt cw :
  find_optimal_window self ps cs d bt = inr cw ->
  1 <= int (d * 2) /\
  exists i : nat,
    Z.of_nat i + int (d * 2) <= len (_align_data ps cs) /\
    describes self (_align_data ps cs) (int (d * 2)) d i cw /\
    first_best self (_align_data ps cs) (int (d * 2)) i.
Proof.
  unfold find_optimal_window.
  destruct (_ || _); [discriminate|].
  destruct (bool_decide (_align_data ps cs = [])); [discriminate|].
  set (aligned := _align_data ps cs). set (k := int (d * 2)).
  destruct (search self aligned k (range (len aligned - k + 1)) (None, (-1)%Q))
    as [e|found] eqn:Hs; [discriminate|].
  cbn [bind].
  assert (1 <= k) as Hk.
  { destruct (Z.le_gt_cases k 0) as [Hle|Hgt]; [|lia].
    rewrite search_nonpositive_size in Hs by assumption. discriminate. }
  pose proof (search_returns_nonempty _ _ _ _ _ _ Hs) as Hne.
  destruct (search_ok self aligned k _ (None, (-1)%Q) Hne)
    as (r & Hr & Hpost).
  rewrite Hs in Hr. injection Hr as <-.
  destruct Hpost as [[-> _]|(p & i & Hp & -> & _ & Hbefore & Hmax)];
    [discriminate|].
  apply range_lookup in Hp as [-> Hp].
  cbn [fst snd].
  destruct (window aligned k p) as [|first others] eqn:Ew; [discriminate|].
  pose proof (slice_inner_length aligned p k Hk ltac:(lia)) as Hlen.
  fold (window aligned k p) in Hlen. rewrite Ew in Hlen.
  cbv beta iota.
  rewrite !div_nonzero by (apply inject_len_nonzero; discriminate).
  cbn [bind].
  match goal with |- (do _ <- ?m ; _) = _ -> _ => destruct m as [e|b] end;
    [discriminate|].
  cbn [bind ret]. intros [= <-].
  split; [exact Hk|]. exists p. split; [lia|]. split.
  - unfold describes. rewrite Ew. cbn [start end_ avg_price avg_carbon
      opportunity_score total_cost rating].
    unfold mean, prices, carbons, len. rewrite !length_map.
    repeat split; try done.
    rewrite last_cons_default. reflexivity.
  - unfold first_best. rewrite Ew. split.
    + intros j Hj. apply Hmax, elem_of_range. lia.
    + intros j Hj. apply (Hbefore j j Hj).
      unfold range. apply lookup_seq. lia.
Qed.


End window_facts.

(** ** Claims about the window selector *)
Module selector_claims.
Import py py_facts slice_facts analyzer scorer_facts search_facts window_facts.





(** The scenario of the test suite: the cheap and clean stretch at index
    4 is the one returned. *)
Example high_score_stretch_selected :
  exists cw,
    find_optimal_window default_analyzer high_score_prices high_score_carbon
      4 None = inr cw /\
    start cw = timedelta_minutes (30 * 4) /\ rating cw = EXCELLENT.
Proof. eexists. split; [vm_compute; reflexivity|]. split; reflexivity. Qed.

(** The basic scenario: a four-hour request is served from midnight at
    the cheap price. *)
Example basic_scenario_starts_at_midnight :
  exists cw,
    find_optimal_window default_analyzer basic_prices basic_carbon 4 None
      = inr cw /\
    start cw = 0 /\ (avg_price cw == 8)%Q /\ avg_carbon cw = 90 /\
    rating cw = EXCELLENT.
Proof.
  eexists. split; [vm_compute; reflexivity|]. repeat split.
Qed.


Lemma half_hourly_lookup l (i n : nat) s t :
  half_hourly l -> l !! i = Some s -> l !! (i + n)%nat = Some t ->
  a_time t = a_time s + Z.of_nat n * timedelta_minutes 30.
Proof.
  intros Hh Hs. revert t. induction n as [|n IH]; intros t Ht.
  - rewrite Nat.add_0_r in Ht. rewrite Hs in Ht. injection Ht as ->. lia.
  - destruct (l !! (i + n)%nat) as [u|] eqn:Eu.
    + rewrite (Hh (i + n)%nat u t Eu) by (rewrite <- Ht; f_equal; lia).
      rewrite (IH u eq_refl). lia.
    + apply lookup_ge_None in Eu. apply lookup_lt_Some in Ht. lia.
Qed.

Lemma window_ends aligned k (i : nat) first final :
  1 <= k -> Z.of_nat i + k <= len aligned ->
  head (window aligned k i) = Some first ->
  last (window aligned k i) = Some final ->
  aligned !! i = Some first /\
  aligned !! (i + (Z.to_nat k - 1))%nat = Some final.
Proof.
  intros Hk Hlen. unfold window. rewrite slice_inner by assumption.
  rewrite head_lookup, last_lookup, length_take, length_drop.
  unfold len in Hlen.
  replace (Init.Nat.pred _) with (Z.to_nat k - 1)%nat by lia.
  rewrite !lookup_take_lt by lia. rewrite !lookup_drop.
  rewrite Nat.add_0_r. auto.
Qed.

(** C2, as amended: a successful call has searched windows of
    [int(d * 2)] slots, the duration in half hours truncated (not
    rounded), which is at least one; the returned window ends 30 minutes
    after its last slot, so [end - start] is that many half hours when
    consecutive aligned slots are 30 minutes apart. *)
Theorem window_spans_truncated_duration self ps cs d bt cw :
  find_optimal_window self ps cs d bt = inr cw ->
  1 <= int (d * 2) /\ int (d * 2) = Qfloor (d * 2) /\
  (exists i : nat,
     Z.of_nat i + int (d * 2) <= len (_align_data ps cs) /\
     len (window (_align_data ps cs) (int (d * 2)) i) = int (d * 2) /\
     a_time <$> head (window (_align_data ps cs) (int (d * 2)) i)
       = Some (start cw) /\
     (fun s => a_time s + timedelta_minutes 30)
       <$> last (window (_align_data ps cs) (int (d * 2)) i)
       = Some (end_ cw)) /\
  (half_hourly (_align_data ps cs) ->
   end_ cw - start cw = int (d * 2) * timedelta_minutes 30).
Proof.
  intros Hcw.
  destruct (find_optimal_window_inv _ _ _ _ _ _ Hcw) as (Hk & i & Hi & Hd & _).
  destruct Hd as (Hlen & Hhead & Hlast & _).
  split; [exact Hk|]. split.
  { apply int_floor. apply int_ge_1 in Hk. lra. }
  split; [exists i; auto|].
  intros Hh.
  destruct (head _) as [first|] eqn:Ef; [|discriminate].
  destruct (last _) as [final|] eqn:El; [|discriminate].
  cbn in Hhead, Hlast. injection Hhead as <-. injection Hlast as <-.
  destruct (window_ends _ _ _ _ _ Hk Hi Ef El) as [Hf Hl].
  rewrite (half_hourly_lookup _ _ _ _ _ Hh Hf Hl).
  unfold timedelta_minutes. lia.
Qed.

Lemma window_spans_truncated_duration_witness :
  exists cw,
    find_optimal_window default_analyzer high_score_prices high_score_carbon
      4 None = inr cw /\
    end_ cw - start cw = int (4 * 2) * timedelta_minutes 30.
Proof.
  eexists. split; [vm_compute; reflexivity|].
  refine (proj2 (proj2 (proj2 (window_spans_truncated_duration
    default_analyzer high_score_prices high_score_carbon 4 None _ _))) _).
  - vm_compute. reflexivity.
  - intros i s t Hs Ht.
    assert (i < 47)%nat as Hi.
    { apply lookup_lt_Some in Ht. vm_compute in Ht. lia. }
    do 47 (destruct i as [|i];
           [vm_compute in Hs, Ht; injection Hs as <-; injection Ht as <-;
            reflexivity|]).
    lia.
Defined.

(** C2 as stated fails: for 0.9 hours the window has [int(1.8) = 1] slot
    and spans one half hour, where [round(1.8) = 2]; and two aligned slots
    90 minutes apart give a one-hour request a span of two hours. *)
Lemma window_span_not_rounded_duration :
  (exists cw,
     find_optimal_window default_analyzer (price_series (fun _ => 8%Q) 2)
       (carbon_series (fun _ => 80) 2) (9 # 10) None = inr cw /\
     round ((9 # 10) * 2) = 2 /\
     end_ cw - start cw = 1 * timedelta_minutes 30 /\
     end_ cw - start cw <> round ((9 # 10) * 2) * timedelta_minutes 30) /\
  (exists cw,
     find_optimal_window default_analyzer gapped_prices gapped_carbon
       1 None = inr cw /\
     round (1 * 2) = 2 /\
     end_ cw - start cw = 4 * timedelta_minutes 30 /\
     end_ cw - start cw <> round (1 * 2) * timedelta_minutes 30).
Proof.
  split; eexists; (split; [vm_compute; reflexivity|]);
    repeat split; vm_compute; discriminate.
Qed.



(** C10: a charge duration strictly between 0 and half an hour gives a
    window size of 0; the first candidate slice is empty and its mean
    divides by zero, so the call neither returns a window nor raises the
    data error. *)
Theorem short_duration_divides_by_zero self ps cs d bt :
  (0 < d)%Q -> (d < 1 # 2)%Q -> _align_data ps cs <> [] ->
  int (d * 2) = 0 /\
  window (_align_data ps cs) (int (d * 2)) 0 = [] /\
  div (sum (prices [])) (inject_Z (len (@nil AlignedSlot)))
    = inl ZeroDivisionError /\
  find_optimal_window self ps cs d bt = inl ZeroDivisionError.
Proof.
  intros H0 H1 Hal.
  assert (int (d * 2) = 0) as Hk by (apply int_small; lra).
  split; [exact Hk|]. rewrite Hk. split; [|split].
  - unfold window. apply slice_stop_zero. lia.
  - reflexivity.
  - unfold find_optimal_window.
    destruct (align_nonempty_inputs ps cs Hal) as [Hps Hcs].
    rewrite !bool_decide_eq_false_2 by assumption. cbn [orb].
    rewrite Hk, search_nonpositive_size by lia. reflexivity.
Qed.

Lemma short_duration_divides_by_zero_witness :
  find_optimal_window default_analyzer high_score_prices high_score_carbon
    (1 # 4) None = inl ZeroDivisionError.
Proof.
  refine (proj2 (proj2 (proj2 (short_duration_divides_by_zero
    default_analyzer high_score_prices high_score_carbon (1 # 4) None
    _ _ _)))).
  - reflexivity.
  - reflexivity.
  - vm_compute. discriminate.
Defined.

End selector_claims.

(** ** The threshold tuner *)
Module tuner_facts.
Import py py_facts threshold_tuner.

Lemma insert_num_length x l : length (insert_num x l) = S (length l).
Proof.
  induction l as [|y l IH]; [reflexivity|].
  cbn. destruct (Qleb x y); cbn; [reflexivity|now rewrite IH].
Qed.

Lemma sorted_length l : length (sorted l) = length l.
Proof.
  induction l as [|x l IH]; [reflexivity|].
  change (sorted (x :: l)) with (insert_num x (sorted l)).
  now rewrite insert_num_length, IH.
Qed.

Lemma getitem_in_range (l : list Q) (j : Z) :
  0 <= j < len l -> getitem l j = inr (nth (Z.to_nat j) l 0%Q).
Proof.
  intros [H0 H1]. unfold getitem, len in *.
  assert ((j <? 0) = false) as Hb by lia.
  cbv zeta. rewrite Hb. cbv iota. rewrite Hb.
  destruct (l !! Z.to_nat j) as [a|] eqn:E.
  - rewrite (nth_lookup_Some _ _ 0%Q _ E). reflexivity.
  - apply lookup_ge_None in E. lia.
Qed.



Lemma inject_Z_sub a b : (inject_Z (a - b) == inject_Z a - inject_Z b)%Q.
Proof. unfold Z.sub. now rewrite inject_Z_plus, inject_Z_opp. Qed.

(** The first quartile cut of the library is the 25th percentile. *)
Lemma first_cut_is_percentile data :
  2 <= len data ->
  exists c, cut_point (sorted data) 4 1 = inr c /\
            (c == percentile (1 # 4) data)%Q.
Proof.
  intros Hlen. unfold cut_point, percentile.
  assert (len (sorted data) = len data) as Hs
    by (unfold len; now rewrite sorted_length).
  set (xs := sorted data) in *. rewrite Hs.
  set (n := len data) in *.
  change (Z.of_nat 1) with 1. rewrite Z.mul_1_l.
  assert (Qfloor ((1 # 4) * inject_Z (n + 1)) = (n + 1) / 4) as ->.
  { unfold Qfloor, Qmult, inject_Z. cbn [Qnum Qden].
    rewrite Z.mul_1_l. reflexivity. }
  set (j0 := (n + 1) / 4).
  assert ((if j0 <? 1 then 1 else if n - 1 <? j0 then n - 1 else j0)
          = Z.max 1 (Z.min (n - 1) j0)) as ->.
  { destruct (Z.ltb_spec j0 1); [lia|].
    destruct (Z.ltb_spec (n - 1) j0); lia. }
  set (j := Z.max 1 (Z.min (n - 1) j0)).
  assert (1 <= j <= n - 1) as Hj by lia.
  rewrite !getitem_in_range by (rewrite Hs; fold n; lia).
  cbn [bind ret]. eexists. split; [reflexivity|].
  rewrite !inject_Z_sub, inject_Z_mult. field.
Qed.

Lemma quantiles_first data :
  2 <= len data ->
  exists cuts c, quantiles data 4 = inr cuts /\ getitem cuts 0 = inr c /\
                 (c == percentile (1 # 4) data)%Q.
Proof.
  intros Hlen. unfold quantiles. cbn [Z.ltb Z.compare].
  assert (len (sorted data) = len data) as Hs
    by (unfold len; now rewrite sorted_length).
  rewrite Hs. destruct (Z.ltb_spec (len data) 2); [lia|].
  destruct (first_cut_is_percentile data Hlen) as (c & Hc & Heq).
  change (seq 1 (Z.to_nat (4 - 1))) with [1%nat; 2%nat; 3%nat].
  cbn [mapM]. rewrite Hc.
  assert (forall i : nat, (1 <= i <= 3)%nat ->
            exists c', cut_point (sorted data) 4 i = inr c') as Hcut.
  { intros i Hi. unfold cut_point. rewrite Hs.
    set (j0 := Z.of_nat i * (len data + 1) / 4).
    set (j := if j0 <? 1 then 1
              else if len data - 1 <? j0 then len data - 1 else j0).
    assert (1 <= j <= len data - 1) as Hj.
    { subst j. destruct (Z.ltb_spec j0 1); [lia|].
      destruct (Z.ltb_spec (len data - 1) j0); lia. }
    rewrite !getitem_in_range by (rewrite Hs; lia).
    eexists. reflexivity. }
  destruct (Hcut 2%nat ltac:(lia)) as [c2 ->].
  destruct (Hcut 3%nat ltac:(lia)) as [c3 ->].
  cbn [ret]. exists [c; c2; c3], c. repeat split; auto.
Qed.

(** The median of the library is the 50th percentile. *)
Lemma median_is_percentile data :
  2 <= len data ->
  exists g, median data = inr g /\ (g == percentile (1 # 2) data)%Q.
Proof.
  intros Hlen. unfold median, percentile.
  assert (len (sorted data) = len data) as Hs
    by (unfold len; now rewrite sorted_length).
  set (xs := sorted data) in *. rewrite Hs.
  set (n := len data) in *.
  destruct (Z.eqb_spec n 0); [lia|].
  assert (Qfloor ((1 # 2) * inject_Z (n + 1)) = (n + 1) / 2) as ->.
  { unfold Qfloor, Qmult, inject_Z. cbn [Qnum Qden].
    rewrite Z.mul_1_l. reflexivity. }
  destruct (Z.eqb_spec (n mod 2) 1) as [Hodd|Heven].
  - assert (n = 2 * (n / 2) + 1) as Hn
      by (pose proof (Z.div_mod n 2 ltac:(lia)); lia).
    assert ((n + 1) / 2 = n / 2 + 1) as ->
      by (clear - Hodd; Z.to_euclidean_division_equations; lia).
    assert (Z.max 1 (Z.min (n - 1) (n / 2 + 1)) = n / 2 + 1) as -> by lia.
    replace (n / 2 + 1 - 1) with (n / 2) by lia.
    rewrite getitem_in_range by (rewrite Hs; fold n; lia).
    eexists. split; [reflexivity|].
    assert ((1 # 2) * inject_Z (n + 1) - inject_Z (n / 2 + 1) == 0)%Q as ->.
    { replace (n + 1) with (2 * (n / 2 + 1)) by lia.
      rewrite inject_Z_mult. change (inject_Z 2) with 2%Q. ring. }
    ring.
  - assert (n mod 2 = 0) as Hm
      by (pose proof (Z.mod_pos_bound n 2 ltac:(lia)); lia).
    assert (n = 2 * (n / 2)) as Hn
      by (pose proof (Z.div_mod n 2 ltac:(lia)); lia).
    assert ((n + 1) / 2 = n / 2) as ->
      by (clear - Hm; Z.to_euclidean_division_equations; lia).
    assert (Z.max 1 (Z.min (n - 1) (n / 2)) = n / 2) as -> by lia.
    rewrite !getitem_in_range by (rewrite Hs; fold n; lia).
    cbn [bind ret]. eexists. split; [reflexivity|].
    assert ((1 # 2) * inject_Z (n + 1) - inject_Z (n / 2) == 1 # 2)%Q as ->.
    { replace (n + 1) with (2 * (n / 2) + 1) by lia.
      rewrite inject_Z_plus, inject_Z_mult.
      change (inject_Z 2) with 2%Q. change (inject_Z 1) with 1%Q. ring. }
    field.
Qed.



End tuner_facts.

(** ** The stable sort *)
Module sort_facts.
Import py.

Section by_key.
Context {A : Type} (key : A -> Z).

Lemma insert_by_Permutation x l : insert_by key x l ≡ₚ x :: l.
Proof.
  induction l as [|y l IH]; [reflexivity|].
  cbn. destruct (key x <=? key y); [reflexivity|].
  rewrite IH. apply Permutation_swap.
Qed.

Lemma sort_by_Permutation l : sort_by key l ≡ₚ l.
Proof.
  induction l as [|x l IH]; [reflexivity|].
  change (sort_by key (x :: l)) with (insert_by key x (sort_by key l)).
  now rewrite insert_by_Permutation, IH.
Qed.

Lemma insert_by_HdRel x y l :
  key y <= key x ->
  HdRel (fun a b => key a <= key b) y l ->
  HdRel (fun a b => key a <= key b) y (insert_by key x l).
Proof.
  intros Hxy Hl. destruct l as [|z l]; cbn.
  - now constructor.
  - destruct (key x <=? key z); constructor; [exact Hxy|].
    now inversion Hl.
Qed.

Lemma insert_by_Sorted x l :
  Sorted (fun a b => key a <= key b) l ->
  Sorted (fun a b => key a <= key b) (insert_by key x l).
Proof.
  induction 1 as [|y l Hs IH Hd]; cbn.
  - repeat constructor.
  - destruct (Z.leb_spec (key x) (key y)).
    + constructor; [now constructor|now constructor].
    + constructor; [exact IH|]. apply insert_by_HdRel; [lia|exact Hd].
Qed.

Lemma sort_by_Sorted l : Sorted (fun a b => key a <= key b) (sort_by key l).
Proof.
  induction l as [|x l IH]; [constructor|].
  change (sort_by key (x :: l)) with (insert_by key x (sort_by key l)).
  now apply insert_by_Sorted.
Qed.

Lemma sort_by_length l : length (sort_by key l) = length l.
Proof. apply Permutation_length, sort_by_Permutation. Qed.
End by_key.

End sort_facts.

(** ** The forecast evolution tracker *)
Module evolution_facts.
Import py py_facts forecast_evolution.

Lemma time_score_nonneg days : (0 <= spec_time_score days)%Q.
Proof.
  unfold spec_time_score.
  repeat (destruct (_ : bool); [discriminate|]).
  change 0%Q with (inject_Z 0). rewrite <- Zle_Qle. lia.
Qed.

Lemma accuracy_score_nonneg mae : (0 <= spec_accuracy_score mae)%Q.
Proof.
  unfold spec_accuracy_score. destruct mae as [m|]; [|discriminate].
  destruct (Qltb m 2); [discriminate|].
  destruct (Qltb 5 m); [discriminate|].
  destruct (Qltb 40 _) eqn:E; [|discriminate].
  apply Qltb_true in E. lra.
Qed.

Lemma blend_nonneg days settled mae : (0 <= spec_blend days settled mae)%Q.
Proof.
  unfold spec_blend.
  pose proof (time_score_nonneg days).
  pose proof (accuracy_score_nonneg mae).
  assert (0 <= spec_source_score settled)%Q
    by (destruct settled; discriminate).
  lra.
Qed.

(** The code computes the blend of the specification before truncating. *)
Lemma confidence_blend days src mae :
  _calculate_confidence days src mae
  = int (spec_blend days (String.eqb src "octopus_actual") mae).
Proof.
  unfold _calculate_confidence, spec_blend.
  replace (100 - days * 10) with (100 - 10 * days) by lia.
  fold (spec_time_score days).
  fold (spec_source_score (String.eqb src "octopus_actual")).
  assert (match mae with
          | Some m => if Qltb 5 m then 40
                      else if Qltb m 2 then 100 else max 40 (100 - m * 12)
          | None => 40
          end%Q = spec_accuracy_score mae
          \/ exists m, mae = Some m /\ (2 <= m <= 5)%Q /\
               (40 < 100 - 12 * m)%Q) as [->|(m & -> & Hm & Hlt)].
  { unfold spec_accuracy_score. destruct mae as [m|]; [|now left].
    destruct (Qltb 5 m) eqn:E5, (Qltb m 2) eqn:E2.
    - apply Qltb_true in E5, E2. lra.
    - now left.
    - now left.
    - unfold max.
      rewrite (Qltb_comp 40 (100 - m * 12) 40 (100 - 12 * m))
        by (try reflexivity; ring).
      destruct (Qltb 40 (100 - 12 * m)) eqn:E; [|now left].
      right. exists m. apply Qltb_true in E.
      apply Qltb_false in E5, E2. auto. }
  - reflexivity.
  - unfold spec_accuracy_score, max.
    destruct (Qltb 5 m) eqn:E5; [apply Qltb_true in E5; lra|].
    destruct (Qltb m 2) eqn:E2; [apply Qltb_true in E2; lra|].
    rewrite (Qltb_comp 40 (100 - m * 12) 40 (100 - 12 * m))
      by (try reflexivity; ring).
    apply Qltb_true in Hlt as Hb. rewrite Hb.
    set (t := spec_time_score days).
    set (s := spec_source_score _).
    assert (0 <= t)%Q as Ht by apply time_score_nonneg.
    assert (0 <= s)%Q as Hs by (subst s; destruct (String.eqb _ _); discriminate).
    rewrite !int_floor by lra.
    apply Qfloor_comp. ring.
Qed.



Section snapshots.
Context (strptime : string -> result Z) (sqrt : Q -> Q).

(** The list of snapshots a call leaves for its target. *)
Lemma record_snapshot_inv today now td dc mae stored saved :
  record_snapshot strptime sqrt today now td dc mae stored = inr saved ->
  exists target, strptime td = inr target /\
    ((target < today /\ saved = stored) \/
     (today <= target /\
      exists t old s,
        target_forecasts saved = <[td := t]> (target_forecasts stored) /\
        old = match target_forecasts stored !! td with
              | Some t0 => snapshots t0
              | None => []
              end /\
        snapshots t
          = sort_by snapshot_date
              (filter (fun s => snapshot_date s <> today) old ++ [s]) /\
        snapshot_date s = today /\
        snapshot_timestamp s = now /\
        predicted_cost s = dc_cost dc /\
        predicted_avg_price s = dc_avg_price dc /\
        confidence_score s
          = _calculate_confidence (target - today) (dc_price_source dc) mae)).
Proof.
  unfold record_snapshot. destruct (strptime td) as [e|target]; [discriminate|].
  cbn [bind]. intros Hrec. exists target. split; [reflexivity|].
  revert Hrec. destruct (Z.ltb_spec target today).
  - intros [= <-]. left. auto.
  - intros [= <-]. right. split; [assumption|].
    eexists _, _, _. cbn [target_forecasts snapshots].
    split; [reflexivity|]. split; [reflexivity|].
    split.
    + destruct (target_forecasts stored !! td); reflexivity.
    + repeat split.
Qed.

Lemma one_per_day_filter_app today (old : list Snapshot) s :
  one_per_day old -> snapshot_date s = today ->
  one_per_day (filter (fun s => snapshot_date s <> today) old ++ [s]).
Proof.
  unfold one_per_day. intros Hold Hs.
  rewrite fmap_app. apply NoDup_app. split; [|split].
  - apply (sublist_NoDup _ (snapshot_date <$> old)); [exact Hold|].
    apply fmap_sublist, sublist_filter.
  - intros d Hd Hin. cbn in Hin. apply list_elem_of_singleton in Hin.
    apply list_elem_of_fmap in Hd as (u & -> & Hu).
    apply list_elem_of_filter in Hu as [Hne _]. congruence.
  - apply NoDup_singleton.
Qed.

Lemma one_per_day_sort l :
  one_per_day l -> one_per_day (sort_by snapshot_date l).
Proof.
  unfold one_per_day. now rewrite sort_facts.sort_by_Permutation.
Qed.

Lemma reachable_invariant data :
  reachable strptime sqrt data ->
  forall td t, target_forecasts data !! td = Some t ->
    one_per_day (snapshots t) /\ chronological (snapshots t).
Proof.
  induction 1 as [|stored today now td0 dc mae saved Hreach IH Hrec].
  - intros td t Ht. cbn in Ht. now rewrite lookup_empty in Ht.
  - intros td t Ht.
    destruct (record_snapshot_inv _ _ _ _ _ _ _ Hrec)
      as (target & _ & [[_ ->]|(_ & t' & old & s & Hsaved & Hold & Hsn & Hd & _)]).
    + now apply (IH td).
    + rewrite Hsaved in Ht. destruct (decide (td0 = td)) as [->|Hne].
      * rewrite lookup_insert_eq in Ht. injection Ht as <-.
        rewrite Hsn. split.
        -- apply one_per_day_sort, one_per_day_filter_app; [|exact Hd].
           rewrite Hold. destruct (target_forecasts stored !! td) eqn:E.
           ++ now apply (IH td).
           ++ constructor.
        -- apply sort_facts.sort_by_Sorted.
      * rewrite lookup_insert_ne in Ht by assumption. now apply (IH td).
Qed.

Lemma filter_today_of_others today (old : list Snapshot) :
  filter (fun s => snapshot_date s = today)
    (filter (fun s => snapshot_date s <> today) old) = [].
Proof.
  induction old as [|u old IHold]; [reflexivity|].
  destruct (decide (snapshot_date u = today)) as [E|E].
  - rewrite (filter_cons_False (fun s0 => snapshot_date s0 <> today))
      by tauto. exact IHold.
  - rewrite (filter_cons_True (fun s0 => snapshot_date s0 <> today))
      by assumption.
    rewrite filter_cons_False by assumption. exact IHold.
Qed.

(** Whatever was stored, after a call for a target of today or later
    the only snapshot dated today is the one just recorded. *)
Lemma record_snapshot_replaces today now td dc mae stored saved target :
  strptime td = inr target -> today <= target ->
  record_snapshot strptime sqrt today now td dc mae stored = inr saved ->
  exists t s,
    target_forecasts saved !! td = Some t /\
    filter (fun s => snapshot_date s = today) (snapshots t) = [s] /\
    snapshot_timestamp s = now /\
    predicted_cost s = dc_cost dc /\
    predicted_avg_price s = dc_avg_price dc /\
    confidence_score s
      = _calculate_confidence (target - today) (dc_price_source dc) mae.
Proof.
  intros Htd Hle Hrec.
  destruct (record_snapshot_inv _ _ _ _ _ _ _ Hrec)
    as (target' & Htd' & [[Hlt _]|(_ & t & old & s & Hsaved & _ & Hsn & Hd
                                    & Hts & Hc & Hp & Hconf)]);
    rewrite Htd in Htd'; injection Htd' as <-; [lia|].
  exists t, s. rewrite Hsaved, lookup_insert_eq.
  repeat split; try assumption.
  apply Permutation_singleton_r.
  rewrite Hsn, sort_facts.sort_by_Permutation, filter_app.
  rewrite filter_singleton_True by assumption.
  rewrite filter_today_of_others.
  reflexivity.
Qed.

(** C6: in every store that sequences of [record_snapshot] calls
    produce, each target's snapshot list has at most one snapshot per
    calendar day and is in chronological order; and a further call for a
    target of today or later leaves exactly one snapshot dated today,
    the one just recorded. *)
Theorem snapshots_one_per_day_sorted data :
  reachable strptime sqrt data ->
  (forall td t, target_forecasts data !! td = Some t ->
     one_per_day (snapshots t) /\ chronological (snapshots t)) /\
  (forall today now td dc mae saved target,
     strptime td = inr target -> today <= target ->
     record_snapshot strptime sqrt today now td dc mae data = inr saved ->
     exists t s,
       target_forecasts saved !! td = Some t /\
       filter (fun s => snapshot_date s = today) (snapshots t) = [s] /\
       snapshot_timestamp s = now /\
       predicted_cost s = dc_cost dc /\
       predicted_avg_price s = dc_avg_price dc /\
       confidence_score s
         = _calculate_confidence (target - today) (dc_price_source dc) mae).
Proof.
  intros Hreach. split.
  - now apply reachable_invariant.
  - intros today now td dc mae saved target.
    apply record_snapshot_replaces.
Qed.
End snapshots.

Lemma snapshots_one_per_day_sorted_witness :
  exists first,
    record_snapshot example_strptime (fun x => x) 739595 1000 "2025-12-12"
      (example_comparison 5 1) None empty_data = inr first /\
  exists saved,
    record_snapshot example_strptime (fun x => x) 739595 2000 "2025-12-12"
      (example_comparison 4 2) None first = inr saved /\
  exists t s,
    target_forecasts saved !! "2025-12-12" = Some t /\
    filter (fun s => snapshot_date s = 739595) (snapshots t) = [s] /\
    snapshot_timestamp s = 2000 /\
    predicted_cost s = dc_cost (example_comparison 4 2) /\
    predicted_avg_price s = dc_avg_price (example_comparison 4 2) /\
    confidence_score s
      = _calculate_confidence (739597 - 739595)
          (dc_price_source (example_comparison 4 2)) None.
Proof.
  eexists. split; [reflexivity|].
  eexists. split; [reflexivity|].
  refine (proj2 (snapshots_one_per_day_sorted example_strptime (fun x => x)
                   _ _) 739595 2000 "2025-12-12" (example_comparison 4 2)
            None _ 739597 _ _ _).
  - apply (reachable_record example_strptime (fun x => x) empty_data
             739595 1000 "2025-12-12" (example_comparison 5 1) None);
      [apply reachable_empty|reflexivity].
  - reflexivity.
  - discriminate.
  - reflexivity.
Defined.

(** Two recordings on one day, then one two days later: the list holds
    the second recording and the later one, in date order. *)
Example two_recordings_same_day :
  exists s1 s2 s3 t,
    record_snapshot example_strptime (fun x => x) 739595 1000 "2025-12-12"
      (example_comparison 5 1) None empty_data = inr s1 /\
    record_snapshot example_strptime (fun x => x) 739597 3000 "2025-12-12"
      (example_comparison 3 3) None s1 = inr s2 /\
    record_snapshot example_strptime (fun x => x) 739595 2000 "2025-12-12"
      (example_comparison 4 2) None s2 = inr s3 /\
    target_forecasts s3 !! "2025-12-12" = Some t /\
    map snapshot_timestamp (snapshots t) = [2000; 3000] /\
    map snapshot_date (snapshots t) = [739595; 739597].
Proof.
  eexists _, _, _, _.
  split; [reflexivity|]. split; [reflexivity|]. split; [reflexivity|].
  split; [vm_compute; reflexivity|]. split; reflexivity.
Qed.

End evolution_facts.

(** ** The forecast accuracy tracker *)
Module tracker_facts.
Import py py_facts slice_facts search_facts tuner_facts forecast_tracker.

Lemma abs_fold_le (l : list Q) (a b : Q) :
  (Qabs a <= b)%Q ->
  (Qabs (foldl Qplus a l) <= foldl Qplus b (map Qabs l))%Q.
Proof.
  revert a b. induction l as [|x l IH]; intros a b Hab; [exact Hab|].
  cbn. apply IH.
  pose proof (Qabs_triangle a x). lra.
Qed.

(** The triangle inequality over a whole list. *)
Lemma abs_sum_le (l : list Q) : (Qabs (sum l) <= sum (map Qabs l))%Q.
Proof. apply abs_fold_le. discriminate. Qed.

Lemma abs_mean_le (l : list Q) :
  l <> [] -> (Qabs (mean l) <= mean (map Qabs l))%Q.
Proof.
  intros Hl. unfold mean, len. rewrite length_map.
  assert (0 < inject_Z (Z.of_nat (length l)))%Q as Hn.
  { change 0%Q with (inject_Z 0). rewrite <- Zlt_Qlt.
    destruct l; [done|cbn; lia]. }
  unfold Qdiv. rewrite Qabs_Qmult.
  rewrite (Qabs_pos (/ _)) by (apply Qlt_le_weak, Qinv_lt_0_compat, Hn).
  apply Qmult_le_compat_r; [apply abs_sum_le|].
  apply Qlt_le_weak, Qinv_lt_0_compat, Hn.
Qed.

Lemma max_of_cons x l : max_of (x :: l) = inr (foldl max x l).
Proof. reflexivity. Qed.

Lemma min_of_cons x l : min_of (x :: l) = inr (foldl min x l).
Proof. reflexivity. Qed.

(** C7: for equal-length non-empty price lists the recorded metrics are
    the mean of the signed errors [actual - forecast] and the mean of
    their absolute values, and the second bounds the absolute value of
    the first. *)
Theorem mae_bounds_mean_error (sqrt : Q -> Q) now d forecast actual
    src stored :
  length forecast = length actual -> forecast <> [] ->
  exists m saved,
    record_comparison sqrt now d forecast actual src stored
      = inr (m, saved) /\
    mean_error m
      = mean (zip_with (fun a f => (a - f)%Q) actual forecast) /\
    mean_absolute_error m
      = mean (map Qabs (zip_with (fun a f => (a - f)%Q) actual forecast)) /\
    (Qabs (mean_error m) <= mean_absolute_error m)%Q.
Proof.
  intros Hlen Hne. unfold record_comparison.
  assert ((len forecast =? len actual) = true) as ->
    by (unfold len; apply Z.eqb_eq; lia).
  cbn [negb].
  destruct forecast as [|f fs]; [done|].
  destruct actual as [|a acts]; [discriminate|].
  set (errs := zip_with (fun a f => (a - f)%Q) (a :: acts) (f :: fs)).
  assert (errs <> []) as Herrs by (subst errs; discriminate).
  assert (map Qabs errs <> []) as Habs by (subst errs; discriminate).
  rewrite !div_nonzero
    by (apply inject_len_nonzero; first [assumption | discriminate]).
  cbn [bind].
  change (map Qabs errs)
    with (Qabs (a - f) :: map Qabs (zip_with (fun a f => (a - f)%Q) acts fs)).
  rewrite !max_of_cons, !min_of_cons. cbn [bind ret].
  eexists _, _. split; [reflexivity|].
  cbn [mean_error mean_absolute_error].
  split; [reflexivity|]. split; [reflexivity|].
  apply (abs_mean_le errs Herrs).
Qed.

Lemma mae_bounds_mean_error_witness :
  exists m saved,
    record_comparison (fun x => x) 0 739595 [10; 10; 10]%Q [12; 9; 10]%Q
      "guy_lipman" [] = inr (m, saved) /\
    mean_error m
      = mean (zip_with (fun a f => (a - f)%Q) [12; 9; 10]%Q [10; 10; 10]%Q) /\
    mean_absolute_error m
      = mean (map Qabs (zip_with (fun a f => (a - f)%Q)
                          [12; 9; 10]%Q [10; 10; 10]%Q)) /\
    (Qabs (mean_error m) <= mean_absolute_error m)%Q.
Proof.
  apply (mae_bounds_mean_error (fun x => x) 0 739595 [10; 10; 10]%Q
           [12; 9; 10]%Q "guy_lipman" []).
  - reflexivity.
  - discriminate.
Defined.






End tracker_facts.

(** * Further properties of the code *)

(** ** Sums, means and sorted lists *)
Module num_facts.
Import py py_facts slice_facts search_facts.







Lemma int_bounds (q : Q) (lo hi : Z) :
  (inject_Z lo <= q <= inject_Z hi)%Q -> lo <= int q <= hi.
Proof.
  destruct q as [n d]. unfold int, Qle, inject_Z. cbn [Qnum Qden].
  intros [H1 H2]. pose proof (Pos2Z.is_pos d).
  Z.to_euclidean_division_equations. nia.
Qed.

Section by_key.
Context {A : Type} (key : A -> Z).

(** In a list sorted on its key, a later position has no smaller key. *)
Lemma Sorted_lookup_le (l : list A) (i j : nat) a b :
  Sorted (fun x y => key x <= key y) l ->
  (i <= j)%nat -> l !! i = Some a -> l !! j = Some b -> key a <= key b.
Proof.
  intros Hs. assert (Transitive (fun x y : A => key x <= key y)) as Htr
    by (intros x y z; lia).
  apply Sorted_StronglySorted in Hs; [|exact Htr].
  revert i j. induction Hs as [|x l Hs IH Hall]; intros i j Hij Hi Hj.
  - now rewrite lookup_nil in Hi.
  - destruct i as [|i], j as [|j]; cbn in Hi, Hj.
    + injection Hi as <-. injection Hj as <-. lia.
    + injection Hi as <-. rewrite Forall_lookup in Hall.
      apply (Hall j b Hj).
    + lia.
    + apply (IH i j); [lia|assumption|assumption].
Qed.



(** An element appended last with a maximal key stays last. *)
Lemma insert_by_snoc y (m : list A) x :
  key y <= key x -> insert_by key y (m ++ [x]) = insert_by key y m ++ [x].
Proof.
  intros H. induction m as [|z m IH]; cbn.
  - destruct (Z.leb_spec (key y) (key x)); [reflexivity|lia].
  - destruct (key y <=? key z); [reflexivity|]. now rewrite IH.
Qed.

Lemma sort_by_snoc (l : list A) x :
  (forall y, y ∈ l -> key y <= key x) ->
  sort_by key (l ++ [x]) = sort_by key l ++ [x].
Proof.
  induction l as [|y l IH]; intros H; [reflexivity|].
  change (sort_by key ((y :: l) ++ [x]))
    with (insert_by key y (sort_by key (l ++ [x]))).
  rewrite IH by (intros z Hz; apply H; now right).
  change (sort_by key (y :: l)) with (insert_by key y (sort_by key l)).
  apply insert_by_snoc. apply H. now left.
Qed.
End by_key.

End num_facts.

(** ** The scorer and the window selector *)
Module analyzer_more.
Import py py_facts slice_facts analyzer scorer_facts search_facts
  window_facts sort_facts.

(** The price score never rises with the price, whatever the order of the
    three thresholds; likewise for carbon. *)
Ltac split_Qleb :=
  repeat match goal with
         | |- context [Qleb ?a ?b] =>
             let E := fresh "E" in
             destruct (Qleb a b) eqn:E;
             [apply Qleb_true in E | apply Qleb_false in E]
         end.

Lemma price_score_antitone self p1 p2 :
  (p1 <= p2)%Q ->
  (calculate_price_score self p2 <= calculate_price_score self p1)%Q.
Proof.
  intros H. unfold calculate_price_score. split_Qleb; lra.
Qed.

Lemma carbon_score_antitone self c1 c2 :
  (c1 <= c2)%Q ->
  (calculate_carbon_score self c2 <= calculate_carbon_score self c1)%Q.
Proof.
  intros H. unfold calculate_carbon_score. split_Qleb; lra.
Qed.

Lemma classify_monotone s1 s2 :
  (s1 <= s2)%Q ->
  rating_rank (classify_opportunity s1) <= rating_rank (classify_opportunity s2).
Proof.
  intros H. unfold classify_opportunity.
  split_Qleb; cbn [rating_rank]; first [lia | lra].
Qed.

(** X1: with non-negative weights, a price and a carbon intensity that
    are both no higher never give a lower opportunity score nor a worse
    rating, whatever the order of the thresholds. *)
Theorem cheaper_cleaner_never_worse self p1 p2 c1 c2 :
  (0 <= price_weight self)%Q -> (0 <= carbon_weight self)%Q ->
  (p1 <= p2)%Q -> (c1 <= c2)%Q ->
  (calculate_opportunity_score self p2 c2
     <= calculate_opportunity_score self p1 c1)%Q /\
  rating_rank (classify_opportunity (calculate_opportunity_score self p2 c2))
    <= rating_rank
         (classify_opportunity (calculate_opportunity_score self p1 c1)).
Proof.
  intros Hp Hc H1 H2.
  assert (calculate_opportunity_score self p2 c2
            <= calculate_opportunity_score self p1 c1)%Q as Hs.
  { unfold calculate_opportunity_score.
    pose proof (price_score_antitone self p1 p2 H1).
    pose proof (carbon_score_antitone self c1 c2 H2). nra. }
  split; [exact Hs|]. now apply classify_monotone.
Qed.

Lemma cheaper_cleaner_never_worse_witness :
  (calculate_opportunity_score default_analyzer 18 180
     <= calculate_opportunity_score default_analyzer 8 90)%Q /\
  rating_rank
    (classify_opportunity (calculate_opportunity_score default_analyzer 18 180))
    <= rating_rank
         (classify_opportunity
            (calculate_opportunity_score default_analyzer 8 90)).
Proof.
  apply (cheaper_cleaner_never_worse default_analyzer 8 18 90 180);
    discriminate.
Defined.

(** X2: when the excellent thresholds do not exceed the good ones, the
    reason names exactly the components that score at least 75: "both",
    "cheap", "clean", or "neither" when none does. *)
Theorem reason_matches_scores self p c :
  (price_excellent self <= price_good self)%Q ->
  carbon_excellent self <= carbon_good self ->
  let cheap := (75 <= calculate_price_score self p)%Q in
  let clean := (75 <= calculate_carbon_score self c)%Q in
  (determine_reason self p c = "both" <-> cheap /\ clean) /\
  (determine_reason self p c = "cheap" <-> cheap /\ ~ clean) /\
  (determine_reason self p c = "clean" <-> ~ cheap /\ clean) /\
  (determine_reason self p c = "neither" <-> ~ cheap /\ ~ clean).
Proof.
  intros Hp Hc cheap clean. subst cheap clean. rewrite Zle_Qle in Hc.
  unfold determine_reason, calculate_price_score, calculate_carbon_score.
  split_Qleb; cbn [andb];
    intuition (first [discriminate | lra | congruence]).
Qed.

Lemma reason_matches_scores_witness :
  determine_reason default_analyzer 12 180 = "cheap" <->
  (75 <= calculate_price_score default_analyzer 12)%Q /\
  ~ (75 <= calculate_carbon_score default_analyzer 180)%Q.
Proof.
  refine (proj1 (proj2 (reason_matches_scores default_analyzer 12 180 _ _)));
    discriminate.
Defined.

(** Every field of the window a successful call returns. *)
Lemma find_optimal_window_fields self ps cs d bt cw :
  find_optimal_window self ps cs d bt = inr cw ->
  exists (i : nat) first others b,
    1 <= int (d * 2) /\
    Z.of_nat i + int (d * 2) <= len (_align_data ps cs) /\
    window (_align_data ps cs) (int (d * 2)) i = first :: others /\
    match bt with
    | Some t => _calculate_baseline_cost (_align_data ps cs) t (int (d * 2))
                  (d * (74 # 10))%Q
    | None => inr (mean (prices (first :: others)) * (d * (74 # 10)) / 100
                   * (15 # 10))%Q
    end = inr b /\
    cw = {| start := a_time first;
            end_ := a_time (List.last others first) + timedelta_minutes 30;
            avg_price := mean (prices (first :: others));
            avg_carbon := int (mean (carbons (first :: others)));
            total_cost :=
              (mean (prices (first :: others)) * (d * (74 # 10)) / 100)%Q;
            total_carbon :=
              int (inject_Z (int (mean (carbons (first :: others))))
                   * (d * (74 # 10)));
            opportunity_score := window_score self (first :: others);
            rating := classify_opportunity
                        (window_score self (first :: others));
            reason := determine_reason self (mean (prices (first :: others)))
                        (inject_Z (int (mean (carbons (first :: others)))));
            savings_vs_baseline :=
              (b - mean (prices (first :: others)) * (d * (74 # 10)) / 100)%Q
         |}.
Proof.
  unfold find_optimal_window.
  destruct (_ || _); [discriminate|].
  destruct (bool_decide (_align_data ps cs = [])); [discriminate|].
  set (aligned := _align_data ps cs). set (k := int (d * 2)).
  destruct (search self aligned k (range (len aligned - k + 1)) (None, (-1)%Q))
    as [e|found] eqn:Hs; [discriminate|].
  cbn [bind].
  assert (1 <= k) as Hk.
  { destruct (Z.le_gt_cases k 0) as [Hle|Hgt]; [|lia].
    rewrite search_nonpositive_size in Hs by assumption. discriminate. }
  pose proof (search_returns_nonempty _ _ _ _ _ _ Hs) as Hne.
  destruct (search_ok self aligned k _ (None, (-1)%Q) Hne)
    as (r & Hr & Hpost).
  rewrite Hs in Hr. injection Hr as <-.
  destruct Hpost as [[-> _]|(p & i & Hp & -> & _)]; [discriminate|].
  apply range_lookup in Hp as [-> Hp].
  cbn [fst snd].
  destruct (window aligned k p) as [|first others] eqn:Ew; [discriminate|].
  cbv beta iota.
  rewrite !div_nonzero by (apply inject_len_nonzero; discriminate).
  cbn [bind].
  intros Hcw. exists p, first, others.
  unfold mean, prices, carbons, len in *. rewrite !length_map in *.
  destruct bt as [t|].
  - destruct (_calculate_baseline_cost _ _ _ _) as [e|b]; [discriminate|].
    exists b. cbn [bind ret] in Hcw. injection Hcw as <-.
    repeat split; first [assumption | lia | reflexivity].
  - eexists. cbn [bind ret] in Hcw. injection Hcw as <-.
    repeat split; first [assumption | lia | reflexivity].
Qed.

Import num_facts.

Lemma carbon_lookup_fold cs (m : gmap Z Z) t :
  foldl (fun m slot => <[cs_time slot := cs_intensity slot]> m) m cs !! t
  = match last (filter (fun c => cs_time c = t) cs) with
    | Some c => Some (cs_intensity c)
    | None => m !! t
    end.
Proof.
  revert m. induction cs as [|c cs IH]; intros m; [reflexivity|].
  cbn [foldl]. rewrite IH.
  destruct (decide (cs_time c = t)) as [E|E].
  - rewrite filter_cons_True by assumption. rewrite last_cons.
    destruct (last _); [reflexivity|]. rewrite E. apply lookup_insert_eq.
  - rewrite filter_cons_False by assumption.
    destruct (last _); [reflexivity|]. now apply lookup_insert_ne.
Qed.

(** The carbon value joined to a time is that of the last carbon slot
    with this time. *)
Lemma carbon_lookup_last cs t :
  carbon_lookup cs !! t
  = cs_intensity <$> last (filter (fun c => cs_time c = t) cs).
Proof.
  unfold carbon_lookup. rewrite carbon_lookup_fold, lookup_empty.
  now destruct (last _).
Qed.

Lemma align_data_elem_of ps cs s :
  s ∈ _align_data ps cs <->
  exists p c, p ∈ ps /\
    last (filter (fun c => cs_time c = ps_time p) cs) = Some c /\
    s = {| a_time := ps_time p; a_price := ps_price p;
           a_carbon := cs_intensity c |}.
Proof.
  unfold _align_data. cbv zeta.
  rewrite sort_by_Permutation, list_elem_of_omap. split.
  - intros (p & Hp & Hs). rewrite carbon_lookup_last in Hs.
    destruct (last _) as [c|] eqn:El; [|discriminate].
    cbn in Hs. injection Hs as <-. exists p, c. auto.
  - intros (p & c & Hp & Hl & ->). exists p. split; [exact Hp|].
    rewrite carbon_lookup_last, Hl. reflexivity.
Qed.

Lemma align_data_Sorted ps cs :
  Sorted (fun a b => a_time a <= a_time b) (_align_data ps cs).
Proof. apply sort_by_Sorted. Qed.

(** X3: the aligned series is in chronological order, and its slots are
    exactly the price slots whose time has a carbon slot, each with the
    intensity of the last carbon slot of that time. *)
Theorem align_data_inner_join ps cs :
  Sorted (fun a b => a_time a <= a_time b) (_align_data ps cs) /\
  (forall s, s ∈ _align_data ps cs <->
     exists p c, p ∈ ps /\
       last (filter (fun c => cs_time c = ps_time p) cs) = Some c /\
       s = {| a_time := ps_time p; a_price := ps_price p;
              a_carbon := cs_intensity c |}) /\
  length (_align_data ps cs)
  = length (filter (fun p => ps_time p ∈ (cs_time <$> cs)) ps).
Proof.
  split; [apply align_data_Sorted|]. split; [apply align_data_elem_of|].
  unfold _align_data. cbv zeta.
  rewrite sort_by_length.
  induction ps as [|p ps IH]; [reflexivity|].
  cbn [omap list_omap]. rewrite carbon_lookup_last.
  destruct (last _) as [c|] eqn:El.
  - cbn [fmap option_fmap option_map length].
    rewrite filter_cons_True.
    + cbn [length]. f_equal. exact IH.
    + apply last_Some_elem_of in El.
      apply list_elem_of_filter in El as [Et Hc].
      apply list_elem_of_fmap. exists c. auto.
  - cbn [fmap option_fmap option_map].
    rewrite filter_cons_False; [exact IH|].
    intros Hin. apply list_elem_of_fmap in Hin as (c & Et & Hc).
    apply last_None in El.
    assert (c ∈ filter (fun c0 => cs_time c0 = ps_time p) cs) as Hf
      by (apply list_elem_of_filter; auto).
    rewrite El in Hf. inversion Hf.
Qed.

(** X4: the three data errors of the selector: an empty input list, no
    overlapping timestamps, and more slots requested than are aligned. *)
Theorem find_optimal_window_data_errors self ps cs d bt :
  (ps = [] \/ cs = [] ->
   find_optimal_window self ps cs d bt
   = inl (ValueError "Price and carbon data required")) /\
  (ps <> [] -> cs <> [] -> _align_data ps cs = [] ->
   find_optimal_window self ps cs d bt
   = inl (ValueError "No overlapping price and carbon data found")) /\
  (_align_data ps cs <> [] -> len (_align_data ps cs) < int (d * 2) ->
   find_optimal_window self ps cs d bt
   = inl (ValueError "No valid charging window found")).
Proof.
  unfold find_optimal_window. split; [|split].
  - intros H.
    assert (bool_decide (ps = []) || bool_decide (cs = []) = true) as ->;
      [|reflexivity].
    apply orb_true_iff.
    destruct H as [-> | ->]; [left|right]; now apply bool_decide_eq_true_2.
  - intros Hp Hc Ha.
    rewrite !bool_decide_eq_false_2 by assumption. cbn [orb].
    now rewrite bool_decide_eq_true_2.
  - intros Ha Hk.
    destruct (align_nonempty_inputs ps cs Ha) as [Hp Hc].
    rewrite !bool_decide_eq_false_2 by assumption. cbn [orb].
    unfold range. replace (Z.to_nat _) with 0%nat by lia. reflexivity.
Qed.

Lemma find_optimal_window_data_errors_witness :
  find_optimal_window default_analyzer [] single_carbon 4 None
  = inl (ValueError "Price and carbon data required") /\
  find_optimal_window default_analyzer single_price gapped_carbon 4 None
  = inl (ValueError "No valid charging window found") /\
  find_optimal_window default_analyzer
    [ {| ps_time := 7; ps_price := 8; ps_source := "octopus" |} ]
    single_carbon 4 None
  = inl (ValueError "No overlapping price and carbon data found").
Proof.
  split; [|split].
  - apply (proj1 (find_optimal_window_data_errors default_analyzer
                    [] single_carbon 4 None)). now left.
  - apply (proj2 (proj2 (find_optimal_window_data_errors default_analyzer
                           single_price gapped_carbon 4 None))).
    + vm_compute. discriminate.
    + reflexivity.
  - apply (proj1 (proj2 (find_optimal_window_data_errors default_analyzer
                           _ single_carbon 4 None)));
      [discriminate|discriminate|reflexivity].
Defined.

(** The baseline time only enters through the baseline cost. *)
Lemma find_optimal_window_baseline self ps cs d bt :
  find_optimal_window self ps cs d bt
  = match find_optimal_window self ps cs d None with
    | inl e => inl e
    | inr cw =>
        match bt with
        | None => inr cw
        | Some t =>
            do b <- _calculate_baseline_cost (_align_data ps cs) t
                      (int (d * 2)) (d * (74 # 10))%Q;
            ret {| start := start cw;
                   end_ := end_ cw;
                   avg_price := avg_price cw;
                   avg_carbon := avg_carbon cw;
                   total_cost := total_cost cw;
                   total_carbon := total_carbon cw;
                   opportunity_score := opportunity_score cw;
                   rating := rating cw;
                   reason := reason cw;
                   savings_vs_baseline := (b - total_cost cw)%Q |}
        end
    end.
Proof.
  unfold find_optimal_window.
  destruct (_ || _); [reflexivity|].
  destruct (bool_decide (_align_data ps cs = [])); [reflexivity|].
  destruct (search _ _ _ _ _) as [e|found]; [reflexivity|].
  cbn [bind].
  destruct (fst found) as [[|first others]|]; [reflexivity| |reflexivity].
  rewrite !div_nonzero by (apply inject_len_nonzero; discriminate).
  cbn [bind ret]. destruct bt as [t|]; reflexivity.
Qed.

(** X5: the baseline time never makes the call fail and changes nothing
    but the savings: the window found, its averages, totals, score,
    rating and reason are the same for any two baseline arguments. *)
Theorem baseline_only_changes_savings self ps cs d bt1 bt2 cw1 :
  find_optimal_window self ps cs d bt1 = inr cw1 ->
  exists cw2,
    find_optimal_window self ps cs d bt2 = inr cw2 /\
    start cw2 = start cw1 /\ end_ cw2 = end_ cw1 /\
    avg_price cw2 = avg_price cw1 /\ avg_carbon cw2 = avg_carbon cw1 /\
    total_cost cw2 = total_cost cw1 /\ total_carbon cw2 = total_carbon cw1 /\
    opportunity_score cw2 = opportunity_score cw1 /\
    rating cw2 = rating cw1 /\ reason cw2 = reason cw1.
Proof.
  rewrite (find_optimal_window_baseline self ps cs d bt1).
  rewrite (find_optimal_window_baseline self ps cs d bt2).
  destruct (find_optimal_window self ps cs d None) as [e|cw]; [discriminate|].
  intros H1.
  assert (start cw = start cw1 /\ end_ cw = end_ cw1 /\
          avg_price cw = avg_price cw1 /\ avg_carbon cw = avg_carbon cw1 /\
          total_cost cw = total_cost cw1 /\
          total_carbon cw = total_carbon cw1 /\
          opportunity_score cw = opportunity_score cw1 /\
          rating cw = rating cw1 /\ reason cw = reason cw1) as Hsame.
  { destruct bt1 as [t|].
    - destruct (_calculate_baseline_cost _ _ _ _) as [e|b]; [discriminate|].
      cbn [bind ret] in H1. injection H1 as <-. cbn. tauto.
    - injection H1 as <-. tauto. }
  destruct bt2 as [t|].
  - destruct (baseline_cost_total (_align_data ps cs) t (int (d * 2))
                (d * (74 # 10))%Q) as [b ->].
    cbn [bind ret]. eexists. split; [reflexivity|]. cbn. tauto.
  - exists cw. tauto.
Qed.

Lemma baseline_only_changes_savings_witness :
  exists cw2,
    find_optimal_window default_analyzer basic_prices basic_carbon 4
      (Some (timedelta_minutes (18 * 60))) = inr cw2 /\
    start cw2 = 0 /\ end_ cw2 = timedelta_minutes 240.
Proof.
  destruct (baseline_only_changes_savings default_analyzer basic_prices
              basic_carbon 4 None (Some (timedelta_minutes (18 * 60)))
              {| start := 0; end_ := timedelta_minutes 240;
                 avg_price := 64 # 8; avg_carbon := 90;
                 total_cost := 18944 # 8000; total_carbon := 2664;
                 opportunity_score := (6 # 10) * 100 + (4 # 10) * 100;
                 rating := EXCELLENT; reason := "both";
                 savings_vs_baseline :=
                   (18944 # 8000) * (15 # 10) - (18944 # 8000) |})
    as (cw2 & H & Hs & He & _).
  - vm_compute. reflexivity.
  - exists cw2. auto.
Defined.



Lemma window_first_last ps cs d (i : nat) first others :
  1 <= int (d * 2) ->
  Z.of_nat i + int (d * 2) <= len (_align_data ps cs) ->
  window (_align_data ps cs) (int (d * 2)) i = first :: others ->
  a_time first <= a_time (List.last others first) /\
  first :: others ⊆ _align_data ps cs.
Proof.
  intros Hk Hi Hw. split.
  - destruct (selector_claims.window_ends (_align_data ps cs) (int (d * 2)) i
                first (List.last others first) Hk Hi) as [Hf Hl].
    { now rewrite Hw. }
    { rewrite Hw. apply last_cons_default. }
    apply (Sorted_lookup_le a_time (_align_data ps cs) i
             (i + (Z.to_nat (int (d * 2)) - 1)));
      [apply align_data_Sorted|lia|exact Hf|exact Hl].
  - rewrite <- Hw. unfold window. rewrite slice_inner by assumption.
    etransitivity; [apply subseteq_take|apply subseteq_drop].
Qed.

(** X7: a returned window ends at least 30 minutes after it starts, so
    its status is upcoming strictly before the start, active from the
    start to the end inclusive, and passed strictly after the end. *)
Theorem returned_window_status self ps cs d bt cw :
  find_optimal_window self ps cs d bt = inr cw ->
  start cw + timedelta_minutes 30 <= end_ cw /\
  forall t,
    (get_status cw t = UPCOMING <-> t < start cw) /\
    (get_status cw t = ACTIVE <-> start cw <= t <= end_ cw) /\
    (get_status cw t = PASSED <-> end_ cw < t) /\
    (get_status cw t = UPCOMING <-> 0 < time_until_start cw t) /\
    (get_status cw t = PASSED <-> time_until_end cw t < 0).
Proof.
  intros H.
  destruct (find_optimal_window_fields _ _ _ _ _ _ H)
    as (i & first & others & b & Hk & Hi & Hw & _ & ->).
  destruct (window_first_last ps cs d i first others Hk Hi Hw) as [Hle _].
  cbn [start end_]. unfold timedelta_minutes in *.
  split; [lia|]. intros t.
  unfold get_status, time_until_start, time_until_end. cbn [start end_].
  destruct (Z.ltb_spec t (a_time first));
    [|destruct (Z.ltb_spec (a_time (List.last others first) + 30 * 60000000) t)];
    repeat split; intros; first [discriminate | lia | reflexivity].
Qed.

Lemma returned_window_status_witness :
  exists cw,
    find_optimal_window default_analyzer basic_prices basic_carbon 4 None
      = inr cw /\
    get_status cw (start cw) = ACTIVE /\ get_status cw (end_ cw) = ACTIVE.
Proof.
  eexists. split; [vm_compute; reflexivity|].
  destruct (returned_window_status default_analyzer basic_prices basic_carbon
              4 None _ ltac:(vm_compute; reflexivity)) as [Hspan Hst].
  split.
  - apply (proj1 (proj2 (Hst _))). cbn [start end_] in *. lia.
  - apply (proj1 (proj2 (Hst _))). cbn [start end_] in *. lia.
Defined.



Lemma first_at_or_after_None t i l :
  (forall s, s ∈ l -> a_time s < t) -> first_at_or_after t i l = None.
Proof.
  revert i. induction l as [|s l IH]; intros i H; [reflexivity|].
  cbn. destruct (Z.leb_spec t (a_time s)).
  - specialize (H s ltac:(left)). lia.
  - apply IH. intros u Hu. apply H. now right.
Qed.

Lemma first_at_or_after_Some t i l (n : nat) s :
  l !! n = Some s -> t <= a_time s ->
  (forall (m : nat) u, (m < n)%nat -> l !! m = Some u -> a_time u < t) ->
  first_at_or_after t i l = Some (i + n)%nat.
Proof.
  revert i n. induction l as [|u l IH]; intros i n Hn Hs Hbefore.
  - now rewrite lookup_nil in Hn.
  - cbn. destruct n as [|n]; cbn in Hn.
    + injection Hn as ->. destruct (Z.leb_spec t (a_time s)); [|lia].
      f_equal. lia.
    + destruct (Z.leb_spec t (a_time u)).
      * specialize (Hbefore 0%nat u ltac:(lia) eq_refl). lia.
      * rewrite (IH (S i) n Hn Hs).
        -- f_equal. lia.
        -- intros m v Hm Hv. apply (Hbefore (S m) v); [lia|exact Hv].
Qed.

(** X9: for a window size of at least one slot, the baseline cost is
    the fixed 5.0 when no aligned slot is at or after the baseline time
    or fewer than the needed slots remain from the first such slot, and
    otherwise the cost at the mean price of the slots from that one. *)
Theorem baseline_cost_cases aligned t k kwh :
  1 <= k ->
  ((forall s, s ∈ aligned -> a_time s < t) ->
   _calculate_baseline_cost aligned t k kwh = inr 5%Q) /\
  (forall (n : nat) s,
     aligned !! n = Some s -> t <= a_time s ->
     (forall (m : nat) u, (m < n)%nat -> aligned !! m = Some u ->
        a_time u < t) ->
     (len aligned < Z.of_nat n + k ->
      _calculate_baseline_cost aligned t k kwh = inr 5%Q) /\
     (Z.of_nat n + k <= len aligned ->
      _calculate_baseline_cost aligned t k kwh
      = inr (mean (prices (window aligned k n)) * kwh / 100)%Q)).
Proof.
  intros Hk. unfold _calculate_baseline_cost. split.
  - intros H. rewrite first_at_or_after_None by assumption. reflexivity.
  - intros n s Hn Hs Hbefore.
    rewrite (first_at_or_after_Some t 0 aligned n s Hn Hs Hbefore).
    cbn [Nat.add]. fold (window aligned k n).
    apply lookup_lt_Some in Hn as Hlt. split.
    + intros Hshort.
      assert (len (window aligned k n) < k) as Hw.
      { unfold window.
        replace (Z.of_nat n + k) with (Z.of_nat (n + Z.to_nat k)) by lia.
        rewrite slice_take_drop. unfold len in *.
        rewrite length_take, length_drop. lia. }
      destruct (bool_decide _); cbn [orb]; [reflexivity|].
      destruct (Z.ltb_spec (len (window aligned k n)) k); [reflexivity|lia].
    + intros Hfull.
      pose proof (slice_inner_length aligned n k Hk Hfull) as Hw.
      fold (window aligned k n) in Hw.
      assert (window aligned k n <> []) as Hne.
      { intros E. rewrite E in Hw. change (len (@nil AlignedSlot)) with 0 in Hw.
        lia. }
      rewrite bool_decide_eq_false_2 by assumption. cbn [orb].
      destruct (Z.ltb_spec (len (window aligned k n)) k); [lia|].
      rewrite div_nonzero by now apply inject_len_nonzero.
      cbn [bind ret]. unfold mean, prices, len. now rewrite length_map.
Qed.

Lemma baseline_cost_cases_witness :
  _calculate_baseline_cost (_align_data basic_prices basic_carbon)
    (timedelta_minutes (30 * 48)) 8 (296 # 10) = inr 5%Q.
Proof.
  refine (proj1 (baseline_cost_cases _ _ 8 _ _) _).
  - discriminate.
  - intros s Hs. apply align_data_elem_of in Hs as (p & c & Hp & _ & ->).
    unfold basic_prices, price_series in Hp.
    apply list_elem_of_fmap in Hp as (i & -> & Hi).
    apply elem_of_seq in Hi. cbn [a_time ps_time].
    unfold timedelta_minutes. lia.
Defined.

End analyzer_more.

(** ** The threshold tuner *)
Module tuner_more.
Import py py_facts slice_facts tuner_facts num_facts threshold_tuner.

Lemma insert_num_Permutation x l : insert_num x l ≡ₚ x :: l.
Proof.
  induction l as [|y l IH]; [reflexivity|].
  cbn. destruct (Qleb x y); [reflexivity|].
  rewrite IH. apply Permutation_swap.
Qed.

Lemma sorted_Permutation l : sorted l ≡ₚ l.
Proof.
  induction l as [|x l IH]; [reflexivity|].
  change (sorted (x :: l)) with (insert_num x (sorted l)).
  now rewrite insert_num_Permutation, IH.
Qed.

Lemma insert_num_Sorted x l : Sorted Qle l -> Sorted Qle (insert_num x l).
Proof.
  induction 1 as [|y l Hs IH Hd]; cbn.
  - repeat constructor.
  - destruct (Qleb x y) eqn:E.
    + apply Qleb_true in E. repeat constructor; assumption.
    + apply Qleb_false in E. constructor; [exact IH|].
      destruct l as [|z l]; cbn.
      * constructor. lra.
      * destruct (Qleb x z); constructor; [lra|now inversion Hd].
Qed.

Lemma sorted_Sorted l : Sorted Qle (sorted l).
Proof.
  induction l as [|x l IH]; [constructor|].
  change (sorted (x :: l)) with (insert_num x (sorted l)).
  now apply insert_num_Sorted.
Qed.

Lemma Sorted_nth_le (l : list Q) (i j : nat) :
  Sorted Qle l -> (i <= j)%nat -> (j < length l)%nat ->
  (nth i l 0 <= nth j l 0)%Q.
Proof.
  intros Hs. assert (Transitive Qle) as Htr by (intros x y z; apply Qle_trans).
  apply Sorted_StronglySorted in Hs; [|exact Htr].
  revert i j. induction Hs as [|x l Hs IH Hall]; intros i j Hij Hj.
  - cbn in Hj. lia.
  - destruct i as [|i], j as [|j]; cbn [nth].
    + apply Qle_refl.
    + rewrite Forall_lookup in Hall.
      destruct (nth_lookup_or_length l j 0%Q) as [E|E]; [|cbn in Hj; lia].
      apply (Hall j _ E).
    + lia.
    + apply IH; [lia|cbn in Hj; lia].
Qed.

Lemma sorted_nth_bounds data (i : nat) (lo hi : Q) :
  (forall p, p ∈ data -> (lo <= p <= hi)%Q) ->
  (i < length data)%nat ->
  (lo <= nth i (sorted data) 0 <= hi)%Q.
Proof.
  intros Hb Hi.
  assert (forall v, v ∈ sorted data -> v ∈ data) as Hperm
    by (intros v Hv; now rewrite sorted_Permutation in Hv).
  apply Hb, Hperm.
  destruct (nth_lookup_or_length (sorted data) i 0%Q) as [E|E].
  - eapply list_elem_of_lookup_2, E.
  - rewrite sorted_length in E. lia.
Qed.

(** A percentile whose rank needs no clamping lies between the two order
    statistics around the rank. *)
Lemma percentile_between p data :
  1 <= Qfloor (p * inject_Z (len data + 1)) <= len data - 1 ->
  (nth (Z.to_nat (Qfloor (p * inject_Z (len data + 1)) - 1)) (sorted data) 0
     <= percentile p data
     <= nth (Z.to_nat (Qfloor (p * inject_Z (len data + 1)))) (sorted data) 0)%Q.
Proof.
  intros Hj. unfold percentile.
  assert (len (sorted data) = len data) as ->
    by (unfold len; now rewrite sorted_length).
  set (h := (p * inject_Z (len data + 1))%Q) in *.
  rewrite Z.min_r, Z.max_r by lia.
  pose proof (Qfloor_le h) as F1. pose proof (Qlt_floor h) as F2.
  rewrite inject_Z_plus in F2. change (inject_Z 1) with 1%Q in F2.
  assert (nth (Z.to_nat (Qfloor h - 1)) (sorted data) 0
            <= nth (Z.to_nat (Qfloor h)) (sorted data) 0)%Q as Hle.
  { apply Sorted_nth_le; [apply sorted_Sorted|lia|].
    rewrite sorted_length. unfold len in Hj. lia. }
  split; nra.
Qed.

Lemma round_floor_cases x : round x = Qfloor x \/ round x = Qfloor x + 1.
Proof.
  unfold round. destruct (Qltb _ _); [now left|].
  destruct (Qltb _ _); [now right|]. destruct (Z.even _); auto.
Qed.

(** Rounding to the nearest integer is monotone. *)
Lemma round_monotone x y : (x <= y)%Q -> round x <= round y.
Proof.
  intros H. pose proof (Qfloor_resp_le x y H) as Hf.
  destruct (Z.eq_dec (Qfloor x) (Qfloor y)) as [E|E].
  - unfold round. rewrite E.
    destruct (Qltb (x - inject_Z (Qfloor y)) (1 # 2)) eqn:X1;
      [apply Qltb_true in X1|apply Qltb_false in X1];
    destruct (Qltb (y - inject_Z (Qfloor y)) (1 # 2)) eqn:Y1;
      [apply Qltb_true in Y1|apply Qltb_false in Y1| |]; try lia; try lra.
    + destruct (Qltb (1 # 2) _); [lia|]. destruct (Z.even _); lia.
    + apply Qltb_true in Y1. lra.
    + apply Qltb_false in Y1.
      destruct (Qltb (1 # 2) (x - inject_Z (Qfloor y))) eqn:X2;
        [apply Qltb_true in X2|apply Qltb_false in X2];
      destruct (Qltb (1 # 2) (y - inject_Z (Qfloor y))) eqn:Y2;
        [apply Qltb_true in Y2|apply Qltb_false in Y2| |];
        try lia; try lra; destruct (Z.even _); lia.
  - destruct (round_floor_cases x) as [-> | ->],
             (round_floor_cases y) as [-> | ->]; lia.
Qed.

Lemma round_nd_monotone x y : (x <= y)%Q -> (round_nd x 1 <= round_nd y 1)%Q.
Proof.
  intros H. unfold round_nd. change (inject_Z (10 ^ 1)) with 10%Q.
  assert (round (x * 10) <= round (y * 10)) as Hr
    by (apply round_monotone; lra).
  rewrite Zle_Qle in Hr.
  apply Qmult_le_compat_r; [exact Hr|]. discriminate.
Qed.

Lemma quartile_rank n : 7 <= n -> 2 <= (n + 1) / 4 <= (n + 1) / 2 - 1.
Proof. intros H. Z.to_euclidean_division_equations. lia. Qed.

Lemma floor_quarter n : Qfloor ((1 # 4) * inject_Z n) = n / 4.
Proof.
  unfold Qfloor, Qmult, inject_Z. cbn [Qnum Qden].
  now rewrite Z.mul_1_l.
Qed.

Lemma floor_half n : Qfloor ((1 # 2) * inject_Z n) = n / 2.
Proof.
  unfold Qfloor, Qmult, inject_Z. cbn [Qnum Qden].
  now rewrite Z.mul_1_l.
Qed.

(** X10: the tuner never fails; its excellent threshold never exceeds
    its good threshold, and from 7 prices on both lie between the
    smallest and the largest price, rounded to one decimal. *)
Theorem thresholds_ordered_within_prices prices days :
  exists excellent good,
    calculate_optimal_thresholds prices days = inr (excellent, good) /\
    (excellent <= good)%Q /\
    (7 <= len prices ->
     forall lo hi : Q,
       (forall p, p ∈ prices -> (lo <= p <= hi)%Q) ->
       (round_nd lo 1 <= excellent)%Q /\ (good <= round_nd hi 1)%Q).
Proof.
  unfold calculate_optimal_thresholds.
  destruct (Z.ltb_spec (len prices) 7) as [Hlt|Hge].
  - eexists _, _. split; [reflexivity|]. split; [discriminate|lia].
  - destruct (quantiles_first prices ltac:(lia)) as (cuts & c & -> & Hc & Ec).
    cbn [bind]. rewrite Hc. cbn [bind].
    destruct (median_is_percentile prices ltac:(lia)) as (g & -> & Eg).
    cbn [bind ret]. eexists _, _. split; [reflexivity|].
    pose proof (quartile_rank (len prices) Hge) as Hr.
    pose proof (percentile_between (1 # 4) prices) as P1.
    pose proof (percentile_between (1 # 2) prices) as P2.
    rewrite floor_quarter in P1. rewrite floor_half in P2.
    assert ((len prices + 1) / 2 <= len prices - 1) as Hh
      by (clear - Hge; Z.to_euclidean_division_equations; lia).
    specialize (P1 ltac:(lia)). specialize (P2 ltac:(lia)).
    assert (nth (Z.to_nat ((len prices + 1) / 4)) (sorted prices) 0
              <= nth (Z.to_nat ((len prices + 1) / 2 - 1)) (sorted prices) 0)%Q
      as Hmid.
    { apply Sorted_nth_le; [apply sorted_Sorted|lia|].
      rewrite sorted_length. unfold len in *. lia. }
    split.
    + apply round_nd_monotone. rewrite Ec, Eg. lra.
    + intros _ lo hi Hb.
      pose proof (sorted_nth_bounds prices
                    (Z.to_nat ((len prices + 1) / 4 - 1)) lo hi Hb) as B1.
      pose proof (sorted_nth_bounds prices
                    (Z.to_nat ((len prices + 1) / 2)) lo hi Hb) as B2.
      unfold len in *.
      specialize (B1 ltac:(lia)). specialize (B2 ltac:(lia)).
      split; apply round_nd_monotone; [rewrite Ec|rewrite Eg]; lra.
Qed.

Lemma thresholds_ordered_within_prices_witness :
  exists excellent good,
    calculate_optimal_thresholds eleven_prices 11 = inr (excellent, good) /\
    (round_nd 5 1 <= excellent)%Q /\ (good <= round_nd 15 1)%Q.
Proof.
  destruct (thresholds_ordered_within_prices eleven_prices 11)
    as (e & g & H & _ & Hb).
  exists e, g. split; [exact H|].
  apply Hb; [discriminate|].
  intros p Hp. unfold eleven_prices in Hp.
  apply list_elem_of_fmap in Hp as (i & -> & Hi).
  apply elem_of_seq in Hi. rewrite <- !(Zle_Qle 5), <- (Zle_Qle _ 15). lia.
Defined.

End tuner_more.

(** ** The forecast evolution tracker *)
Module evolution_more.
Import py py_facts slice_facts sort_facts num_facts evolution_facts
  forecast_evolution.

Lemma time_score_range days : (30 <= spec_time_score days <= 100)%Q.
Proof.
  unfold spec_time_score.
  destruct (days <=? 1); [split; discriminate|].
  destruct (days =? 2); [split; discriminate|].
  destruct (Z.leb_spec days 4); [split; discriminate|].
  change 30%Q with (inject_Z 30). change 100%Q with (inject_Z 100).
  rewrite <- !Zle_Qle. lia.
Qed.

Lemma accuracy_score_range mae : (40 <= spec_accuracy_score mae <= 100)%Q.
Proof.
  unfold spec_accuracy_score. destruct mae as [m|]; [|split; discriminate].
  destruct (Qltb m 2) eqn:E2; [split; discriminate|].
  destruct (Qltb 5 m); [split; discriminate|].
  apply Qltb_false in E2.
  destruct (Qltb 40 _) eqn:E; [|split; discriminate].
  apply Qltb_true in E. split; lra.
Qed.

Lemma source_score_range settled :
  (50 <= spec_source_score settled <= 100)%Q.
Proof. destruct settled; split; discriminate. Qed.

(** X11: whatever the horizon, the source and the historical error, the
    confidence score lies between 39 and 100. *)
Theorem confidence_between_39_and_100 days src mae :
  39 <= _calculate_confidence days src mae <= 100.
Proof.
  rewrite confidence_blend. apply int_bounds. unfold spec_blend.
  pose proof (time_score_range days).
  pose proof (source_score_range (String.eqb src "octopus_actual")).
  pose proof (accuracy_score_range mae).
  change (inject_Z 39) with 39%Q. change (inject_Z 100) with 100%Q.
  split; lra.
Qed.

Lemma time_score_antitone d1 d2 :
  d1 <= d2 -> (spec_time_score d2 <= spec_time_score d1)%Q.
Proof.
  intros H. unfold spec_time_score.
  destruct (Z.leb_spec d1 1), (Z.leb_spec d2 1); try lia;
    try discriminate.
  - pose proof (time_score_range d2) as [_ Hr]. unfold spec_time_score in Hr.
    destruct (Z.leb_spec d2 1); [lia|]. exact Hr.
  - destruct (Z.eqb_spec d1 2), (Z.eqb_spec d2 2); try lia; try discriminate.
    + destruct (Z.leb_spec d2 4); [discriminate|].
      change 85%Q with (inject_Z 85). rewrite <- Zle_Qle. lia.
    + destruct (Z.leb_spec d1 4), (Z.leb_spec d2 4); try lia;
        try discriminate.
      * change 60%Q with (inject_Z 60). rewrite <- Zle_Qle. lia.
      * rewrite <- Zle_Qle. lia.
Qed.

Lemma accuracy_score_antitone m1 m2 :
  (m1 <= m2)%Q ->
  (spec_accuracy_score (Some m2) <= spec_accuracy_score (Some m1))%Q.
Proof.
  intros H. unfold spec_accuracy_score.
  repeat match goal with
         | |- context [Qltb ?a ?b] =>
             let E := fresh "E" in
             destruct (Qltb a b) eqn:E;
             [apply Qltb_true in E | apply Qltb_false in E]
         end; lra.
Qed.

Lemma int_monotone_nonneg x y : (0 <= x)%Q -> (x <= y)%Q -> int x <= int y.
Proof.
  intros H0 H. rewrite !int_floor by lra. now apply Qfloor_resp_le.
Qed.

(** X12: the confidence score never rises with the number of days to
    the target, never rises with the historical error (a missing error
    counting as the worst), and is never lower for settled prices than
    for any other source. *)
Theorem confidence_monotone days src mae :
  (forall later, days <= later ->
     _calculate_confidence later src mae
       <= _calculate_confidence days src mae) /\
  (forall m1 m2, (m1 <= m2)%Q ->
     _calculate_confidence days src (Some m2)
       <= _calculate_confidence days src (Some m1)) /\
  (forall m, _calculate_confidence days src None
               <= _calculate_confidence days src (Some m)) /\
  _calculate_confidence days src mae
    <= _calculate_confidence days "octopus_actual" mae.
Proof.
  rewrite !confidence_blend.
  pose proof (source_score_range (String.eqb src "octopus_actual")) as Hs.
  repeat split.
  - intros later Hl. rewrite !confidence_blend.
    apply int_monotone_nonneg; [apply blend_nonneg|].
    unfold spec_blend. pose proof (time_score_antitone days later Hl). lra.
  - intros m1 m2 Hm. rewrite !confidence_blend.
    apply int_monotone_nonneg; [apply blend_nonneg|].
    unfold spec_blend. pose proof (accuracy_score_antitone m1 m2 Hm). lra.
  - intros m. rewrite !confidence_blend.
    apply int_monotone_nonneg; [apply blend_nonneg|].
    unfold spec_blend.
    pose proof (accuracy_score_range (Some m)).
    change (spec_accuracy_score None) with 40%Q. lra.
  - apply int_monotone_nonneg; [apply blend_nonneg|].
    unfold spec_blend. change (String.eqb "octopus_actual" "octopus_actual")
      with true. change (spec_source_score true) with 100%Q. lra.
Qed.

Section store.
Context (strptime : string -> result Z) (sqrt : Q -> Q).

(** The file content a call leaves, for a target of today or later. *)
Lemma record_snapshot_saved today now td dc mae stored saved target :
  strptime td = inr target -> today <= target ->
  record_snapshot strptime sqrt today now td dc mae stored = inr saved ->
  exists t0,
    t0 = default {| target_date := td; snapshots := [];
                    evolution_summary := None; actual_result := None |}
           (target_forecasts stored !! td) /\
    saved
    = {| target_forecasts :=
           <[td :=
               {| target_date := target_date t0;
                  snapshots :=
                    sort_by snapshot_date
                      (filter (fun s => snapshot_date s <> today)
                         (snapshots t0)
                       ++ [snapshot_of today now target dc mae]);
                  evolution_summary :=
                    _calculate_evolution_summary sqrt
                      (sort_by snapshot_date
                         (filter (fun s => snapshot_date s <> today)
                            (snapshots t0)
                          ++ [snapshot_of today now target dc mae]));
                  actual_result := actual_result t0 |}]>
             (target_forecasts stored);
         last_cleanup := last_cleanup stored |}.
Proof.
  intros Htd Hle. unfold record_snapshot. rewrite Htd. cbn [bind].
  destruct (Z.ltb_spec target today); [lia|].
  intros [= <-]. eexists. split; [reflexivity|].
  destruct (target_forecasts stored !! td); reflexivity.
Qed.

Lemma record_snapshot_past today now td dc mae stored saved target :
  strptime td = inr target -> target < today ->
  record_snapshot strptime sqrt today now td dc mae stored = inr saved ->
  saved = stored.
Proof.
  intros Htd Hlt. unfold record_snapshot. rewrite Htd. cbn [bind].
  destruct (Z.ltb_spec target today); [|lia]. now intros [= <-].
Qed.

Lemma record_snapshot_parses today now td dc mae stored saved :
  record_snapshot strptime sqrt today now td dc mae stored = inr saved ->
  exists target, strptime td = inr target.
Proof.
  unfold record_snapshot. destruct (strptime td) as [e|target];
    [discriminate|eauto].
Qed.

Lemma summary_of_nonempty (l : list Snapshot) :
  l <> [] ->
  exists sm, _calculate_evolution_summary sqrt l = Some sm /\
    num_snapshots sm = len l /\
    Some (first_snapshot sm) = snapshot_date <$> head l.
Proof.
  destruct l as [|x l]; [done|]. intros _.
  eexists. split; [reflexivity|]. split; reflexivity.
Qed.

(** The shape of every entry of a reachable store. *)
Lemma reachable_entries data :
  reachable strptime sqrt data ->
  forall td t, target_forecasts data !! td = Some t ->
    target_date t = td /\
    snapshots t <> [] /\
    (exists target, strptime td = inr target /\
       forall s, s ∈ snapshots t ->
         snapshot_date s <= target /\
         days_until_target s = target - snapshot_date s) /\
    (exists sm, evolution_summary t = Some sm /\
       num_snapshots sm = len (snapshots t) /\
       Some (first_snapshot sm) = snapshot_date <$> head (snapshots t)).
Proof.
  induction 1 as [|stored today now td0 dc mae saved Hreach IH Hrec].
  - intros td t Ht. cbn in Ht. now rewrite lookup_empty in Ht.
  - intros td t Ht.
    destruct (record_snapshot_parses _ _ _ _ _ _ _ Hrec) as [target Htd].
    destruct (Z.lt_ge_cases target today) as [Hlt|Hge].
    { rewrite (record_snapshot_past _ _ _ _ _ _ _ _ Htd Hlt Hrec) in Ht.
      now apply IH. }
    destruct (record_snapshot_saved _ _ _ _ _ _ _ _ Htd Hge Hrec)
      as (t0 & Ht0 & ->).
    cbn [target_forecasts] in Ht.
    destruct (decide (td0 = td)) as [->|Hne];
      [|rewrite lookup_insert_ne in Ht by assumption; now apply IH].
    rewrite lookup_insert_eq in Ht. injection Ht as <-.
    cbn [target_date snapshots evolution_summary].
    set (new := snapshot_of today now target dc mae).
    set (kept := filter (fun s => snapshot_date s <> today) (snapshots t0)).
    assert (sort_by snapshot_date (kept ++ [new]) <> []) as Hne.
    { intros E. apply (f_equal length) in E.
      rewrite sort_by_length, length_app in E. cbn in E. lia. }
    assert (target_date t0 = td /\
            forall s, s ∈ snapshots t0 ->
              snapshot_date s <= target /\
              days_until_target s = target - snapshot_date s) as [Hk Hold].
    { destruct (target_forecasts stored !! td) as [t1|] eqn:E;
        cbn [default] in Ht0; subst t0.
      - destruct (IH td t1 E) as (H1 & _ & (tg & Htg & Hs) & _).
        rewrite Htd in Htg. injection Htg as <-. auto.
      - split; [reflexivity|]. intros s Hs. inversion Hs. }
    split; [exact Hk|]. split; [exact Hne|]. split.
    + exists target. split; [exact Htd|]. intros s Hs.
      rewrite sort_by_Permutation in Hs.
      apply elem_of_app in Hs as [Hs|Hs].
      * apply Hold. subst kept. now apply list_elem_of_filter in Hs as [_ Hs].
      * apply list_elem_of_singleton in Hs as ->. cbn. lia.
    + now apply summary_of_nonempty.
Qed.

(** X13: in every store that [record_snapshot] calls produce, a tracked
    target carries its own date, at least one snapshot, and a summary
    counting its snapshots and dated from the earliest one; its key
    parses, and every snapshot was taken on or before the target date,
    [days_until_target] days ahead of it. *)
Theorem tracked_targets_well_formed data :
  reachable strptime sqrt data ->
  forall td t, get_evolution td data = Some t ->
    target_date t = td /\
    snapshots t <> [] /\
    (exists target, strptime td = inr target /\
       forall s, s ∈ snapshots t ->
         snapshot_date s <= target /\
         days_until_target s = target - snapshot_date s /\
         0 <= days_until_target s) /\
    (exists sm first,
       evolution_summary t = Some sm /\
       num_snapshots sm = len (snapshots t) /\
       head (snapshots t) = Some first /\
       first_snapshot sm = snapshot_date first /\
       forall s, s ∈ snapshots t -> first_snapshot sm <= snapshot_date s).
Proof.
  intros Hreach td t Ht. unfold get_evolution in Ht.
  destruct (reachable_entries data Hreach td t Ht)
    as (H1 & H2 & (target & Htd & Hs) & (sm & Hsm & Hn & Hf)).
  split; [exact H1|]. split; [exact H2|]. split.
  - exists target. split; [exact Htd|]. intros s Hin.
    destruct (Hs s Hin) as [Ha Hb]. repeat split; [exact Ha|exact Hb|lia].
  - destruct (snapshots t) as [|first rest] eqn:El; [done|].
    exists sm, first. cbn in Hf. injection Hf as Hf.
    repeat split; try assumption.
    intros s Hin. rewrite Hf.
    destruct (reachable_invariant strptime sqrt data Hreach td t Ht)
      as [_ Hchron].
    unfold chronological in Hchron. rewrite El in Hchron.
    apply list_elem_of_lookup_1 in Hin as [i Hi].
    apply (Sorted_lookup_le snapshot_date (first :: rest) 0 i first s Hchron);
      [lia|reflexivity|exact Hi].
Qed.


(** X14: when no stored snapshot of the target is dated after today,
    the latest snapshot after a recording is the one just recorded. *)
Theorem latest_snapshot_after_record today now td dc mae stored saved target :
  strptime td = inr target -> today <= target ->
  (forall s, s ∈ stored_snapshots td stored -> snapshot_date s <= today) ->
  record_snapshot strptime sqrt today now td dc mae stored = inr saved ->
  get_latest_snapshot td saved = Some (snapshot_of today now target dc mae).
Proof.
  intros Htd Hle Hold Hrec.
  destruct (record_snapshot_saved _ _ _ _ _ _ _ _ Htd Hle Hrec)
    as (t0 & Ht0 & ->).
  unfold get_latest_snapshot, get_evolution. cbn [target_forecasts].
  rewrite lookup_insert_eq. cbn [snapshots].
  assert (snapshots t0 = stored_snapshots td stored) as Hs0.
  { unfold stored_snapshots. subst t0.
    now destruct (target_forecasts stored !! td). }
  rewrite sort_by_snoc.
  - rewrite last_snoc. clear Hrec.
    destruct (sort_by snapshot_date (filter _ (snapshots t0))); reflexivity.
  - intros y Hy. apply list_elem_of_filter in Hy as [_ Hy].
    rewrite Hs0 in Hy. cbn. now apply Hold.
Qed.
End store.

Lemma latest_snapshot_after_record_witness :
  exists first saved,
    record_snapshot example_strptime (fun x => x) 739595 1000 "2025-12-12"
      (example_comparison 5 1) None empty_data = inr first /\
    record_snapshot example_strptime (fun x => x) 739596 2000 "2025-12-12"
      (example_comparison 4 2) None first = inr saved /\
    get_latest_snapshot "2025-12-12" saved
    = Some (snapshot_of 739596 2000 739597 (example_comparison 4 2) None).
Proof.
  eexists _, _. split; [reflexivity|]. split; [reflexivity|].
  refine (latest_snapshot_after_record example_strptime (fun x => x)
            739596 2000 "2025-12-12" (example_comparison 4 2) None _ _ 739597
            _ _ _ _).
  4: reflexivity.
  - reflexivity.
  - discriminate.
  - intros s Hs. cbv [stored_snapshots] in Hs. cbn in Hs.
    apply list_elem_of_singleton in Hs as ->. discriminate.
Defined.


Section changes.
Context (strptime : string -> result Z) (sqrt : Q -> Q).


(** X16: recording an actual result writes nothing for a target that is
    not tracked; for a tracked one it sets the result, replacing an
    earlier one, and leaves the snapshots and summary of every target,
    and every other entry, as they were. *)
Theorem record_actual_result_effect now td cost price stored :
  (get_evolution td stored = None ->
   record_actual_result now td cost price stored = stored) /\
  (forall t, get_evolution td stored = Some t ->
     get_evolution td (record_actual_result now td cost price stored)
     = Some {| target_date := target_date t;
               snapshots := snapshots t;
               evolution_summary := evolution_summary t;
               actual_result :=
                 Some {| recorded_at := now; actual_cost := cost;
                         actual_avg_price := price |} |}) /\
  (forall other, other <> td ->
     get_evolution other (record_actual_result now td cost price stored)
     = get_evolution other stored) /\
  (forall any,
     stored_snapshots any (record_actual_result now td cost price stored)
     = stored_snapshots any stored) /\
  last_cleanup (record_actual_result now td cost price stored)
  = last_cleanup stored.
Proof.
  unfold record_actual_result, get_evolution, stored_snapshots.
  destruct (target_forecasts stored !! td) as [t|] eqn:E.
  - cbn [target_forecasts last_cleanup].
    split; [discriminate|]. split.
    { intros t' [= <-]. now rewrite lookup_insert_eq. }
    split.
    { intros other Ho. now rewrite lookup_insert_ne. }
    split; [|reflexivity].
    intros any. destruct (decide (td = any)) as [<-|Hne].
    + now rewrite lookup_insert_eq, E.
    + now rewrite lookup_insert_ne.
  - repeat split; intros; first [reflexivity | discriminate].
Qed.

Lemma mapM_ok {A B} (f : A -> result B) (l : list A) :
  (forall a, a ∈ l -> exists b, f a = inr b) ->
  exists bs, mapM f l = inr bs.
Proof.
  induction l as [|a l IH]; intros H; [eexists; reflexivity|].
  cbn. destruct (H a) as [b ->]; [left|].
  destruct IH as [bs ->]; [intros x Hx; apply H; now right|].
  eexists; reflexivity.
Qed.

(** X17: a cleanup that returns keeps exactly the targets dated on or
    after the cutoff of 30 days before today, each entry unchanged; it
    returns the number of entries removed, and stamps the store with the
    cleanup time only when it removed some. *)
Theorem cleanup_old_data_effect today now stored removed saved :
  cleanup_old_data strptime today now stored = inr (removed, saved) ->
  (forall td,
     get_evolution td saved
     = if keeps strptime (today - RETENTION_DAYS) td
       then get_evolution td stored else None) /\
  removed = Z.of_nat (size (target_forecasts stored))
            - Z.of_nat (size (target_forecasts saved)) /\
  0 <= removed /\
  last_cleanup saved
  = (if 0 <? removed then Some now else last_cleanup stored).
Proof.
  unfold cleanup_old_data.
  destruct (mapM _ _) as [e|parsed]; [discriminate|]. cbn [bind].
  set (P := fun kv : string * TargetData =>
              keeps strptime (today - RETENTION_DAYS) kv.1 = true).
  set (kept := filter P (target_forecasts stored)).
  assert (forall td,
            kept !! td
            = if keeps strptime (today - RETENTION_DAYS) td
              then target_forecasts stored !! td else None) as Hlook.
  { intros td. subst kept. rewrite map_lookup_filter.
    destruct (target_forecasts stored !! td) as [t|]; cbn;
      [|now destruct (keeps _ _ _)].
    subst P. cbn [fst].
    destruct (keeps strptime (today - RETENTION_DAYS) td) eqn:E.
    - now rewrite option_guard_True.
    - rewrite option_guard_False; [reflexivity|]. discriminate. }
  pose proof (map_size_filter P (target_forecasts stored)) as Hsize.
  fold kept in Hsize.
  destruct (Z.ltb_spec 0 (Z.of_nat (size (target_forecasts stored))
                          - Z.of_nat (size kept))) as [Hpos|Hzero].
  - intros [= <- <-]. cbn [target_forecasts last_cleanup].
    unfold get_evolution. cbn [target_forecasts].
    split; [exact Hlook|]. split; [reflexivity|]. split; [lia|].
    destruct (Z.ltb_spec 0 (Z.of_nat (size (target_forecasts stored))
                            - Z.of_nat (size kept))); [reflexivity|lia].
  - intros [= <- <-].
    assert (kept = target_forecasts stored) as Heq.
    { apply map_subseteq_size_eq; [apply map_filter_subseteq|lia]. }
    unfold get_evolution. rewrite Heq in *.
    split; [exact Hlook|]. split; [lia|]. split; [lia|].
    destruct (Z.ltb_spec 0 (Z.of_nat (size (target_forecasts stored))
                            - Z.of_nat (size (target_forecasts stored))));
      [lia|reflexivity].
Qed.

(** X18: on a store produced by [record_snapshot] calls the cleanup
    never fails (every key was parsed when it was recorded), and every
    target it leaves is an unchanged entry dated on or after the
    cutoff. *)
Theorem cleanup_after_recording today now data :
  reachable strptime sqrt data ->
  exists removed saved,
    cleanup_old_data strptime today now data = inr (removed, saved) /\
    forall td t, get_evolution td saved = Some t ->
      get_evolution td data = Some t /\
      exists target, strptime td = inr target /\
                     today - RETENTION_DAYS <= target.
Proof.
  intros Hreach.
  destruct (mapM_ok (fun kv : string * TargetData => strptime kv.1)
              (map_to_list (target_forecasts data))) as [parsed Hp].
  { intros [k t] Hin. apply elem_of_map_to_list in Hin.
    destruct (reachable_entries strptime sqrt data Hreach k t Hin)
      as (_ & _ & (target & Htd & _) & _). eauto. }
  unfold cleanup_old_data. rewrite Hp. cbn [bind].
  set (P := fun kv : string * TargetData =>
              keeps strptime (today - RETENTION_DAYS) kv.1 = true).
  assert (forall td t,
            filter P (target_forecasts data) !! td = Some t ->
            target_forecasts data !! td = Some t /\
            exists target, strptime td = inr target /\
                           today - RETENTION_DAYS <= target) as Hkept.
  { intros td t Hl. apply map_lookup_filter_Some in Hl as [Hl Hk].
    split; [exact Hl|]. subst P. cbn [fst] in Hk. unfold keeps in Hk.
    destruct (strptime td) as [e|target]; [discriminate|].
    exists target. split; [reflexivity|]. lia. }
  destruct (0 <? _) eqn:E; eexists _, _; (split; [reflexivity|]);
    unfold get_evolution; cbn [target_forecasts].
  - exact Hkept.
  - intros td t Ht.
    pose proof (map_size_filter P (target_forecasts data)) as Hsize.
    assert (filter P (target_forecasts data) = target_forecasts data) as Heq.
    { apply map_subseteq_size_eq; [apply map_filter_subseteq|].
      apply Z.ltb_ge in E. lia. }
    rewrite <- Heq in Ht. destruct (Hkept td t Ht) as [H1 H2].
    split; [rewrite <- Heq in H1|]; auto.
    now rewrite Heq in Ht.
Qed.
End changes.

Lemma tracked_targets_well_formed_witness :
  exists saved t,
    record_snapshot example_strptime (fun x => x) 739595 1000 "2025-12-12"
      (example_comparison 5 1) None empty_data = inr saved /\
    get_evolution "2025-12-12" saved = Some t /\
    target_date t = "2025-12-12" /\ snapshots t <> [].
Proof.
  eexists _, _. split; [reflexivity|]. split; [reflexivity|].
  destruct (tracked_targets_well_formed example_strptime (fun x => x) _
              (reachable_record example_strptime (fun x => x) empty_data
                 739595 1000 "2025-12-12" (example_comparison 5 1) None _
                 (reachable_empty _ _) eq_refl)
              "2025-12-12" _ eq_refl) as (H1 & H2 & _).
  split; assumption.
Defined.


Lemma cleanup_old_data_effect_witness :
  exists first removed saved,
    record_snapshot example_strptime (fun x => x) 739595 1000 "2025-12-12"
      (example_comparison 5 1) None empty_data = inr first /\
    cleanup_old_data example_strptime 739640 5000 first
    = inr (removed, saved) /\
    removed = 1 /\
    get_evolution "2025-12-12" saved = None /\
    last_cleanup saved = Some 5000.
Proof.
  eexists _, _, _. split; [reflexivity|].
  match goal with
  | |- cleanup_old_data _ _ _ ?f = _ /\ _ => set (first := f)
  end.
  split; [reflexivity|].
  match goal with
  | |- _ /\ get_evolution _ ?sv = _ /\ _ => set (saved := sv)
  end.
  destruct (cleanup_old_data_effect example_strptime 739640 5000 first 1
              saved eq_refl) as (Hl & Hr & Hp & Hc).
  split; [reflexivity|]. split; [|exact Hc].
  rewrite Hl. reflexivity.
Defined.

Lemma cleanup_after_recording_witness :
  exists removed saved,
    cleanup_old_data example_strptime 739600 5000 one_snapshot_store
    = inr (removed, saved) /\
    forall td t, get_evolution td saved = Some t ->
      get_evolution td one_snapshot_store = Some t /\
      exists target, example_strptime td = inr target /\
                     739600 - RETENTION_DAYS <= target.
Proof.
  apply (cleanup_after_recording example_strptime (fun x => x) 739600 5000
           one_snapshot_store
           (reachable_record example_strptime (fun x => x) empty_data
              739595 1000 "2025-12-12" (example_comparison 5 1) None
              one_snapshot_store (reachable_empty _ _) eq_refl)).
Defined.

End evolution_more.

(** ** More on forecast_tracker.py *)
Module tracker_more.
Import py py_facts slice_facts search_facts sort_facts num_facts tuner_facts
  tuner_more tracker_facts forecast_tracker.







(** X19: the outcomes of [record_comparison]: lists of different lengths
    are a ValueError, two empty lists a ZeroDivisionError, and equally
    long non-empty lists always give metrics and a saved list. *)
Theorem record_comparison_outcomes (sqrt : Q -> Q) now d forecast actual
    src stored :
  (length forecast <> length actual ->
   record_comparison sqrt now d forecast actual src stored
   = inl (ValueError "Price lists must be same length")) /\
  (forecast = [] -> actual = [] ->
   record_comparison sqrt now d forecast actual src stored
   = inl ZeroDivisionError) /\
  (length forecast = length actual -> forecast <> [] ->
   exists m,
     record_comparison sqrt now d forecast actual src stored
     = inr (m, _save_comparison m stored) /\
     date m = d /\ timestamp m = now /\ forecast_source m = src).
Proof.
  split; [|split].
  - intros Hne. unfold record_comparison.
    assert ((len forecast =? len actual) = false) as ->
      by (unfold len; apply Z.eqb_neq; lia).
    reflexivity.
  - intros -> ->. reflexivity.
  - intros Hlen Hne. unfold record_comparison.
    assert ((len forecast =? len actual) = true) as ->
      by (unfold len; apply Z.eqb_eq; lia).
    cbn [negb].
    destruct forecast as [|f fs]; [done|].
    destruct actual as [|a acts]; [discriminate|].
    set (errs := zip_with (fun a f => (a - f)%Q) (a :: acts) (f :: fs)).
    assert (errs <> []) as Herrs by (subst errs; discriminate).
    assert (map Qabs errs <> []) as Habs by (subst errs; discriminate).
    rewrite !div_nonzero
      by (apply inject_len_nonzero; first [assumption | discriminate]).
    cbn [bind].
    change (map Qabs errs)
      with (Qabs (a - f)
              :: map Qabs (zip_with (fun a f => (a - f)%Q) acts fs)).
    rewrite !max_of_cons, !min_of_cons. cbn [bind ret].
    eexists. split; [reflexivity|]. repeat split.
Qed.




Lemma Sorted_weaken {A} (R R' : A -> A -> Prop) (l : list A) :
  (forall a b, R a b -> R' a b) -> Sorted R l -> Sorted R' l.
Proof.
  intros HR. induction 1 as [|x l Hs IH Hd]; constructor; [exact IH|].
  destruct Hd; constructor. now apply HR.
Qed.

Lemma sort_by_desc_StronglySorted {A} (key : A -> Z) (l : list A) :
  StronglySorted (fun a b => key b <= key a) (sort_by_desc key l).
Proof.
  apply Sorted_StronglySorted; [intros x y z; lia|].
  apply (Sorted_weaken (fun a b => - key a <= - key b));
    [intros a b; lia|].
  apply (sort_by_Sorted (fun a => - key a)).
Qed.

Lemma sort_by_desc_Permutation {A} (key : A -> Z) (l : list A) :
  sort_by_desc key l ≡ₚ l.
Proof. apply (sort_by_Permutation (fun a => - key a)). Qed.

Lemma save_comparison_unfold m stored :
  _save_comparison m stored
  = take 90 (sort_by_desc date
               (filter (fun c => date c <> date m) stored ++ [m])).
Proof.
  unfold _save_comparison.
  apply (slice_take_drop (sort_by_desc date _) 0 90).
Qed.

(** X21: the list [_save_comparison] writes is in descending date order
    and holds at most 90 records; each is the new record or a stored one
    of another date, so the new record replaces its date's; distinct
    dates stay distinct; below 90 stored records the new one is kept and
    nothing of another date is lost; and a stored record that is dropped
    is no newer than any record kept. *)
Theorem save_comparison_invariant m stored :
  let saved := _save_comparison m stored in
  Sorted (fun a b => date b <= date a) saved /\
  len saved <= 90 /\
  (forall c, c ∈ saved -> c = m \/ (c ∈ stored /\ date c <> date m)) /\
  (NoDup (date <$> stored) -> NoDup (date <$> saved)) /\
  (len stored < 90 ->
   forall c, c ∈ saved <-> c = m \/ (c ∈ stored /\ date c <> date m)) /\
  (forall c x, c ∈ stored -> date c <> date m -> c ∉ saved -> x ∈ saved ->
     date c <= date x).
Proof.
  cbv zeta. rewrite save_comparison_unfold.
  set (kept := filter (fun c => date c <> date m) stored).
  set (L := sort_by_desc date (kept ++ [m])).
  pose proof (sort_by_desc_StronglySorted date (kept ++ [m])) as HS.
  pose proof (sort_by_desc_Permutation date (kept ++ [m])) as HP.
  fold L in HS, HP.
  assert (forall c, c ∈ L <-> c = m \/ (c ∈ stored /\ date c <> date m))
    as HL.
  { intros c. rewrite HP, elem_of_app, list_elem_of_singleton.
    subst kept. rewrite list_elem_of_filter. tauto. }
  rewrite <- (take_drop 90 L) in HS.
  split; [|split; [|split; [|split; [|split]]]].
  - apply StronglySorted_Sorted. now apply StronglySorted_app_1_l in HS.
  - unfold len. rewrite length_take. lia.
  - intros c Hc. apply HL. revert Hc. apply subseteq_take.
  - intros Hnd.
    apply (sublist_NoDup (date <$> take 90 L) (date <$> L));
      [|apply fmap_sublist, sublist_take].
    rewrite HP, fmap_app. apply NoDup_app. split; [|split].
    + apply (sublist_NoDup (date <$> kept) (date <$> stored));
        [exact Hnd|].
      apply fmap_sublist. subst kept. apply sublist_filter.
    + intros d Hd Hm. cbn in Hm. apply list_elem_of_singleton in Hm as ->.
      apply list_elem_of_fmap in Hd as (c & Hdc & Hc).
      subst kept. apply list_elem_of_filter in Hc as [Hne _].
      now apply Hne.
    + cbn. apply NoDup_singleton.
  - intros Hlen c. rewrite take_ge; [apply HL|].
    apply Permutation_length in HP. rewrite HP, length_app. cbn.
    pose proof (length_filter (fun c => date c <> date m) stored).
    fold kept in H. unfold len in Hlen. lia.
  - intros c x Hc Hne Hnot Hx.
    assert (c ∈ take 90 L ++ drop 90 L) as Hin.
    { rewrite take_drop. apply HL. right. now split. }
    apply elem_of_app in Hin as [Hin|Hin]; [contradiction|].
    apply (StronglySorted_app_1_elem_of _ _ _ x c HS Hx Hin).
Qed.







End tracker_more.
